(** * Guest-session image gallery backend (backend/app.py)

    A shallow embedding of the Flask handlers of [backend/app.py] and of the
    relational store they talk to, followed by the properties of the
    ownership-scoped CRUD and ordering model.

    The handlers are embedded at the level of the Python code: the request
    body is the JSON value returned by [request.get_json()], dictionary
    accesses raise the exceptions Python raises, and the [try/except] of each
    handler turns any exception into a 500 response while keeping the store
    writes that were already committed.

    The store is the hosted database behind the [supabase] client.  It is an
    external service; its model here is a pair of tables (lists of rows in
    insertion order) with equality filters, ordering, limit, insert, update
    and delete.  Modelling assumptions on the store, none of which is taken
    from the handlers:
    - row ids, guest tokens and timestamps are text;
    - an equality filter compares the column with the text the client
      formats the value into, which is Python's [str] of the value;
    - in an insert or update payload, text columns accept JSON strings and
      [display_order] accepts JSON integers; any other value is rejected and
      the client raises [APIError];
    - [order(...)] is a merge sort on [display_order] (the database leaves the
      order of ties open; the properties below do not depend on it);
    - the id of an inserted row and the readings of the clock are inputs of
      the handler that needs them; an insert whose id is already taken
      violates the primary key and raises [APIError];
    - JSON numbers are integers and the characters of a string are code
      points below 256. *)

From Stdlib Require Import ZArith String Ascii DecimalString.
From stdpp Require Import base decidable option list strings sorting.

Set Warnings "-register-all".
Open Scope Z_scope.
Open Scope string_scope.

(** ** JSON values and the Python operations used on them *)

Module Json.

Inductive json : Type :=
| JNull
| JBool (b : bool)
| JNum (n : Z)
| JStr (s : string)
| JArr (items : list json)
| JObj (fields : list (string * json)).

(** Python truth value of a parsed JSON value ([not v] is its negation). *)
Definition truthy (v : json) : bool :=
  match v with
  | JNull => false
  | JBool b => b
  | JNum n => negb (Z.eqb n 0)
  | JStr s => negb (String.eqb s "")
  | JArr items => match items with [] => false | _ => true end
  | JObj fields => match fields with [] => false | _ => true end
  end.

(** Lookup in a parsed dict (keys of a dict are unique; the first binding
    of the association list is the dict's). *)
Fixpoint dict_lookup (k : string) (fields : list (string * json)) : option json :=
  match fields with
  | [] => None
  | (k', v) :: rest => if String.eqb k k' then Some v else dict_lookup k rest
  end.

Definition dict_has (k : string) (fields : list (string * json)) : bool :=
  match dict_lookup k fields with Some _ => true | None => false end.

(** [needle in hay] on Python strings: substring test. *)
Fixpoint str_contains (needle hay : string) : bool :=
  String.prefix needle hay ||
  match hay with
  | EmptyString => false
  | String _ hay' => str_contains needle hay'
  end.

Definition is_str (k : string) (v : json) : bool :=
  match v with JStr s => String.eqb s k | _ => false end.

(** The characters of a Python string, as iteration yields them. *)
Fixpoint chars (s : string) : list json :=
  match s with
  | EmptyString => []
  | String c s' => JStr (String c EmptyString) :: chars s'
  end.

End Json.
Import Json.

(** ** Exceptions and outcomes *)

Inductive exn : Type :=
| AttributeError
| TypeError
| KeyError (k : string)
| IndexError
| APIError.

Inductive outcome (A : Type) : Type :=
| Val (a : A)
| Raise (e : exn).
Arguments Val {A} a.
Arguments Raise {A} e.

(** [data.get(k, dflt)] *)
Definition py_get_default (d : json) (k : string) (dflt : json) : outcome json :=
  match d with
  | JObj fields => Val (default dflt (dict_lookup k fields))
  | _ => Raise AttributeError
  end.

(** [data.get(k)]: the default is [None], which is JSON's null. *)
Definition py_get (d : json) (k : string) : outcome json :=
  py_get_default d k JNull.

(** [k in data] for a string [k] *)
Definition py_in (k : string) (d : json) : outcome bool :=
  match d with
  | JObj fields => Val (dict_has k fields)
  | JArr items => Val (existsb (is_str k) items)
  | JStr s => Val (str_contains k s)
  | _ => Raise TypeError
  end.

(** [d[k]] for a string [k] *)
Definition py_getitem (d : json) (k : string) : outcome json :=
  match d with
  | JObj fields =>
      match dict_lookup k fields with
      | Some v => Val v
      | None => Raise (KeyError k)
      end
  | _ => Raise TypeError
  end.

(** The items a [for] loop over [d] yields, or the [TypeError] of a value
    that is not iterable.  A dict yields its keys. *)
Definition py_iter (d : json) : outcome (list json) :=
  match d with
  | JArr items => Val items
  | JObj fields => Val (map (fun kv => JStr (fst kv)) fields)
  | JStr s => Val (chars s)
  | _ => Raise TypeError
  end.

(** *** [str(v)] and [repr(v)]

    The text Python makes of a parsed JSON value: what an f-string puts in
    place of the value. *)

Definition hex_digit (n : nat) : ascii :=
  default "0"%char (String.get n "0123456789abcdef").

Definition backslash : ascii := ascii_of_nat 92.
Definition squote : ascii := ascii_of_nat 39.
Definition dquote : ascii := ascii_of_nat 34.

Fixpoint has_char (c : ascii) (s : string) : bool :=
  match s with
  | EmptyString => false
  | String a s' => Ascii.eqb a c || has_char c s'
  end.

(** The escape [\xhh]. *)
Definition hex_escape (n : nat) : string :=
  String backslash
    (String "x" (String (hex_digit (n / 16))
                   (String (hex_digit (n mod 16)) EmptyString))).

(** One character of a string inside its [repr]: the quote and the
    backslash are escaped, tab, newline and return have their letter, the
    other characters that are not printable are written in hexadecimal. *)
Definition repr_char (quote : ascii) (c : ascii) : string :=
  let n := nat_of_ascii c in
  if Ascii.eqb c quote || Ascii.eqb c backslash
  then String backslash (String c EmptyString)
  else if Nat.eqb n 9 then String backslash "t"
  else if Nat.eqb n 10 then String backslash "n"
  else if Nat.eqb n 13 then String backslash "r"
  else if Nat.ltb n 32 || Nat.eqb n 127 then hex_escape n
  else if Nat.ltb n 127 then String c EmptyString
  else if Nat.leb n 160 || Nat.eqb n 173 then hex_escape n
  else String c EmptyString.

Fixpoint repr_chars (quote : ascii) (s : string) : string :=
  match s with
  | EmptyString => EmptyString
  | String c s' => String.append (repr_char quote c) (repr_chars quote s')
  end.

(** [repr(s)] of a string: in single quotes, unless it holds a single
    quote and no double quote. *)
Definition repr_str (s : string) : string :=
  let quote :=
    if has_char squote s && negb (has_char dquote s) then dquote else squote in
  String quote (String.append (repr_chars quote s) (String quote EmptyString)).

(** [sep.join(parts)] *)
Fixpoint join (sep : string) (parts : list string) : string :=
  match parts with
  | [] => EmptyString
  | [p] => p
  | p :: rest => String.append p (String.append sep (join sep rest))
  end.

Fixpoint py_repr (v : json) : string :=
  match v with
  | JNull => "None"
  | JBool true => "True"
  | JBool false => "False"
  | JNum n => NilZero.string_of_int (Z.to_int n)
  | JStr s => repr_str s
  | JArr items =>
      String.append "[" (String.append (join ", " (map py_repr items)) "]")
  | JObj fields =>
      String.append "{"
        (String.append
           (join ", "
              (map (fun kv => String.append (repr_str (fst kv))
                                (String.append ": " (py_repr (snd kv))))
                   fields))
           "}")
  end.

(** [str(v)]: a string is its own text, any other value its [repr]. *)
Definition py_str (v : json) : string :=
  match v with
  | JStr s => s
  | _ => py_repr v
  end.

(** ** The store: tables [users] and [images] *)

Record user : Type := mkUser {
  u_id : string;
  u_guest_id : string;
  u_created_at : string;
  u_last_accessed : string
}.

Record image : Type := mkImage {
  img_id : string;
  img_user_id : string;
  img_title : string;
  img_image_url : string;
  img_description : string;
  img_display_order : Z;
  img_created_at : string;
  img_updated_at : string
}.

Record store : Type := mkStore {
  users : list user;
  images : list image
}.

Definition set_users (us : list user) (st : store) : store :=
  mkStore us (images st).
Definition set_images (imgs : list image) (st : store) : store :=
  mkStore (users st) imgs.

Definition set_last_accessed (t : string) (u : user) : user :=
  mkUser (u_id u) (u_guest_id u) (u_created_at u) t.

Definition set_user_id (v : string) (r : image) : image :=
  mkImage (img_id r) v (img_title r) (img_image_url r) (img_description r)
          (img_display_order r) (img_created_at r) (img_updated_at r).
Definition set_title (v : string) (r : image) : image :=
  mkImage (img_id r) (img_user_id r) v (img_image_url r) (img_description r)
          (img_display_order r) (img_created_at r) (img_updated_at r).
Definition set_image_url (v : string) (r : image) : image :=
  mkImage (img_id r) (img_user_id r) (img_title r) v (img_description r)
          (img_display_order r) (img_created_at r) (img_updated_at r).
Definition set_description (v : string) (r : image) : image :=
  mkImage (img_id r) (img_user_id r) (img_title r) (img_image_url r) v
          (img_display_order r) (img_created_at r) (img_updated_at r).
Definition set_display_order (v : Z) (r : image) : image :=
  mkImage (img_id r) (img_user_id r) (img_title r) (img_image_url r)
          (img_description r) v (img_created_at r) (img_updated_at r).
Definition set_created_at (v : string) (r : image) : image :=
  mkImage (img_id r) (img_user_id r) (img_title r) (img_image_url r)
          (img_description r) (img_display_order r) v (img_updated_at r).
Definition set_updated_at (v : string) (r : image) : image :=
  mkImage (img_id r) (img_user_id r) (img_title r) (img_image_url r)
          (img_description r) (img_display_order r) (img_created_at r) v.

(** *** Typed columns

    What the store makes of one [column: value] pair of an insert or update
    payload of table [images]: the write on a row, or [None] when it rejects
    the pair. *)
Definition text_column (set : string -> image -> image) (v : json)
  : option (image -> image) :=
  match v with JStr s => Some (set s) | _ => None end.

Definition int_column (set : Z -> image -> image) (v : json)
  : option (image -> image) :=
  match v with JNum n => Some (set n) | _ => None end.

Definition column_write (col : string) (v : json) : option (image -> image) :=
  if String.eqb col "user_id" then text_column set_user_id v
  else if String.eqb col "title" then text_column set_title v
  else if String.eqb col "image_url" then text_column set_image_url v
  else if String.eqb col "description" then text_column set_description v
  else if String.eqb col "display_order" then int_column set_display_order v
  else if String.eqb col "created_at" then text_column set_created_at v
  else if String.eqb col "updated_at" then text_column set_updated_at v
  else None.

(** A payload is a Python dict literal, kept in the order its keys were
    added; its writes are applied in that order. *)
Fixpoint payload_write (payload : list (string * json)) : option (image -> image) :=
  match payload with
  | [] => Some (fun r => r)
  | (col, v) :: rest =>
      match column_write col v, payload_write rest with
      | Some w, Some ws => Some (fun r => ws (w r))
      | _, _ => None
      end
  end.

(** *** The monad of a request: store state and Python exceptions

    A raised exception keeps the store as it was when it was raised: every
    [execute()] is its own committed step. *)
Definition M (A : Type) : Type := store -> store * outcome A.

Definition raise {A} (e : exn) : M A := fun st => (st, Raise e).
Definition lift {A} (o : outcome A) : M A := fun st => (st, o).

Global Instance M_ret : MRet M := fun A a st => (st, Val a).
Global Instance M_bind : MBind M := fun A B k m st =>
  match m st with
  | (st', Val a) => k a st'
  | (st', Raise e) => (st', Raise e)
  end.

(** [rows[0]] *)
Definition first_row {A} (rows : list A) : M A :=
  match rows with
  | r :: _ => mret r
  | [] => raise IndexError
  end.

(** *** Queries *)

Definition asc (a b : image) : Prop := img_display_order a <= img_display_order b.
Definition desc (a b : image) : Prop := img_display_order b <= img_display_order a.

Global Instance asc_dec a b : Decision (asc a b) := Z_le_dec _ _.
Global Instance desc_dec a b : Decision (desc a b) := Z_le_dec _ _.

(** [table("users").select("id").eq("guest_id", g).execute().data] *)
Definition users_select_id_by_guest (g : string) : M (list string) :=
  fun st => (st, Val (map u_id (filter (fun u => u_guest_id u = g) (users st)))).

(** [table("users").select("*").eq("guest_id", g).execute().data] *)
Definition users_select_by_guest (g : string) : M (list user) :=
  fun st => (st, Val (filter (fun u => u_guest_id u = g) (users st))).

(** [table("users").update({"last_accessed": t}).eq("id", uid).execute()] *)
Definition users_touch (t : string) (uid : string) : M unit :=
  fun st =>
    (set_users (map (fun u => if decide (u_id u = uid)
                              then set_last_accessed t u else u) (users st)) st,
     Val tt).

(** [table("images").select("*").eq("user_id", uid).order("display_order")] *)
Definition images_select_by_user_ordered (uid : string) : M (list image) :=
  fun st =>
    (st, Val (merge_sort asc (filter (fun r => img_user_id r = uid) (images st)))).

(** [table("images").select("display_order").eq("user_id", uid)
      .order("display_order", desc=True).limit(1)] *)
Definition images_select_top_order (uid : string) : M (list Z) :=
  fun st =>
    (st, Val (map img_display_order
                (take 1 (merge_sort desc
                           (filter (fun r => img_user_id r = uid) (images st)))))).

(** [table("images").select("*").eq("id", iid).eq("user_id", uid)] *)
Definition images_select_by_id_user (iid uid : string) : M (list image) :=
  fun st =>
    (st, Val (filter (fun r => img_id r = iid /\ img_user_id r = uid) (images st))).

Definition blank_image (iid : string) : image :=
  mkImage iid "" "" "" "" 0 "" "".

(** [table("images").insert(payload).execute().data]; [new_id] is the id the
    store generates for the row. *)
Definition images_insert (new_id : string) (payload : list (string * json))
  : M (list image) :=
  fun st =>
    match payload_write payload with
    | None => (st, Raise APIError)
    | Some w =>
        if decide (new_id ∈ map img_id (images st)) then (st, Raise APIError)
        else
          let row := w (blank_image new_id) in
          (set_images (images st ++ [row]) st, Val [row])
    end.

(** [table("images").update(payload)] followed by the filters [P] and
    [execute().data]: the rows that were updated. *)
Definition images_update (payload : list (string * json))
    (P : image -> Prop) `{forall r, Decision (P r)} : M (list image) :=
  fun st =>
    match payload_write payload with
    | None => (st, Raise APIError)
    | Some w =>
        (set_images (map (fun r => if decide (P r) then w r else r) (images st)) st,
         Val (map w (filter P (images st))))
    end.

(** [table("images").delete().eq("id", iid).execute()] *)
Definition images_delete_by_id (iid : string) : M unit :=
  fun st =>
    (set_images (filter (fun r => img_id r <> iid) (images st)) st, Val tt).

(** [table("images").update(payload).eq("id", idv).eq("user_id", uid)] with
    the id taken from the request body: the client formats it into the
    filter as [f"eq.{idv}"], whatever its type. *)
Definition images_update_by_id_user (payload : list (string * json))
    (idv : json) (uid : string) : M (list image) :=
  images_update payload (fun r => img_id r = py_str idv /\ img_user_id r = uid).

(** ** Responses *)

Inductive body : Type :=
| ErrorBody (msg : string)          (* {"error": msg} *)
| ExceptionBody (e : exn)           (* {"error": str(e)} *)
| MessageBody (msg : string)        (* {"message": msg} *)
| ImageBody (row : image)
| ImagesBody (rows : list image)
| UserBody (user_id guest_id created_at : string).

Definition response : Type := body * Z.

(** [try: ... except Exception as e: return jsonify({"error": str(e)}), 500] *)
Definition try_except (m : M response) : store -> store * response :=
  fun st =>
    match m st with
    | (st', Val r) => (st', r)
    | (st', Raise e) => (st', (ExceptionBody e, 500))
    end.

(** ** Helper functions *)

(** The decorator [require_guest_id]; [hdr] is [request.headers.get("X-Guest-ID")]. *)
Definition require_guest_id (f : string -> store -> store * response)
    (hdr : option string) : store -> store * response :=
  match hdr with
  | Some guest_id =>
      if String.eqb guest_id "" then fun st => (st, (ErrorBody "Guest ID required", 401))
      else f guest_id
  | None => fun st => (st, (ErrorBody "Guest ID required", 401))
  end.

(** [update_data[k] = v] *)
Fixpoint dict_set (k : string) (v : json) (d : list (string * json))
  : list (string * json) :=
  match d with
  | [] => [(k, v)]
  | (k', v') :: rest =>
      if String.eqb k k' then (k', v) :: rest else (k', v') :: dict_set k v rest
  end.

(** [if k in data: update_data[k] = data[k]] *)
Definition copy_if_present (data : json) (k : string)
    (update_data : list (string * json)) : M (list (string * json)) :=
  present ← lift (py_in k data);
  if (present : bool) then
    v ← lift (py_getitem data k);
    mret (dict_set k v update_data)
  else mret update_data.

(** ** Auth routes *)

(** [verify_guest]; [now] is the reading of [datetime.utcnow().isoformat()]. *)
Definition verify_guest (now : string) (guest_id : string)
  : store -> store * response :=
  try_except (
    data ← users_select_by_guest guest_id;
    match data with
    | [] => mret (ErrorBody "Guest not found", 404)
    | user :: _ =>
        users_touch now (u_id user);;
        mret (UserBody (u_id user) (u_guest_id user) (u_created_at user), 200)
    end).

(** ** Image routes *)

Definition get_images (guest_id : string) : store -> store * response :=
  try_except (
    user ← users_select_id_by_guest guest_id;
    match user with
    | [] => mret (ErrorBody "User not found", 404)
    | user_id :: _ =>
        rows ← images_select_by_user_ordered user_id;
        mret (ImagesBody rows, 200)
    end).

(** [create_image]; [t_created] and [t_updated] are the two readings of the
    clock and [new_id] the id the store gives to the inserted row. *)
Definition create_image (t_created t_updated new_id : string)
    (guest_id : string) (data : json) : store -> store * response :=
  try_except (
    url ← lift (py_get data "image_url");
    if negb (truthy url) then mret (ErrorBody "image_url is required", 400)
    else
      user ← users_select_id_by_guest guest_id;
      match user with
      | [] => mret (ErrorBody "User not found", 404)
      | user_id :: _ =>
          top ← images_select_top_order user_id;
          let next_order := match top with o :: _ => o | [] => -1 end + 1 in
          title ← lift (py_get_default data "title" (JStr "Untitled"));
          image_url ← lift (py_get data "image_url");
          description ← lift (py_get_default data "description" (JStr ""));
          rows ← images_insert new_id
                   [("user_id", JStr user_id);
                    ("title", title);
                    ("image_url", image_url);
                    ("description", description);
                    ("display_order", JNum next_order);
                    ("created_at", JStr t_created);
                    ("updated_at", JStr t_updated)];
          row ← first_row rows;
          mret (ImageBody row, 201)
      end).

Definition update_image (now : string) (guest_id image_id : string)
    (data : json) : store -> store * response :=
  try_except (
    user ← users_select_id_by_guest guest_id;
    match user with
    | [] => mret (ErrorBody "User not found", 404)
    | user_id :: _ =>
        found ← images_select_by_id_user image_id user_id;
        match found with
        | [] => mret (ErrorBody "Image not found or access denied", 404)
        | _ :: _ =>
            update_data ← copy_if_present data "title" [("updated_at", JStr now)];
            update_data ← copy_if_present data "description" update_data;
            update_data ← copy_if_present data "image_url" update_data;
            update_data ← copy_if_present data "display_order" update_data;
            rows ← images_update update_data (fun r => img_id r = image_id);
            row ← first_row rows;
            mret (ImageBody row, 200)
        end
    end).

Definition delete_image (guest_id image_id : string)
  : store -> store * response :=
  try_except (
    user ← users_select_id_by_guest guest_id;
    match user with
    | [] => mret (ErrorBody "User not found", 404)
    | user_id :: _ =>
        found ← images_select_by_id_user image_id user_id;
        match found with
        | [] => mret (ErrorBody "Image not found or access denied", 404)
        | _ :: _ =>
            images_delete_by_id image_id;;
            mret (MessageBody "Image deleted", 200)
        end
    end).

(** The body of [for item in order_list] of [reorder_images]. *)
Definition reorder_item (user_id : string) (item : json) : M unit :=
  order ← lift (py_getitem item "order");
  id ← lift (py_getitem item "id");
  images_update_by_id_user [("display_order", order)] id user_id;;
  mret tt.

Fixpoint reorder_loop (user_id : string) (items : list json) : M unit :=
  match items with
  | [] => mret tt
  | item :: rest => reorder_item user_id item;; reorder_loop user_id rest
  end.

Definition reorder_images (guest_id : string) (data : json)
  : store -> store * response :=
  try_except (
    order_list ← lift (py_get_default data "order" (JArr []));
    user ← users_select_id_by_guest guest_id;
    match user with
    | [] => mret (ErrorBody "User not found", 404)
    | user_id :: _ =>
        items ← lift (py_iter order_list);
        reorder_loop user_id items;;
        mret (MessageBody "Reordered", 200)
    end).

(** The routes as registered: each handler behind [require_guest_id]. *)
Definition route_verify_guest (now : string) := require_guest_id (verify_guest now).
Definition route_get_images := require_guest_id get_images.
Definition route_create_image (t_created t_updated new_id : string)
    (hdr : option string) (data : json) :=
  require_guest_id (fun g => create_image t_created t_updated new_id g data) hdr.
Definition route_update_image (now : string) (hdr : option string)
    (image_id : string) (data : json) :=
  require_guest_id (fun g => update_image now g image_id data) hdr.
Definition route_delete_image (hdr : option string) (image_id : string) :=
  require_guest_id (fun g => delete_image g image_id) hdr.
Definition route_reorder_images (hdr : option string) (data : json) :=
  require_guest_id (fun g => reorder_images g data) hdr.

(** ** Vocabulary of the specification *)

(** [resolve(token)]: the id of the first user row carrying the token, as
    every image handler computes it ([user.data[0]["id"]]). *)
Definition resolve (st : store) (guest_id : string) : option string :=
  head (map u_id (filter (fun u => u_guest_id u = guest_id) (users st))).

(** The user row [verify_guest] works on ([response.data[0]]). *)
Definition lookup_user (st : store) (guest_id : string) : option user :=
  head (filter (fun u => u_guest_id u = guest_id) (users st)).

(** The images owned by [uid], in table order. *)
Definition owned_images (st : store) (uid : string) : list image :=
  filter (fun r => img_user_id r = uid) (images st).

(** The order [create_image] computes for the next image of [uid]. *)
Definition next_order (st : store) (uid : string) : Z :=
  match map img_display_order (take 1 (merge_sort desc (owned_images st uid))) with
  | o :: _ => o
  | [] => -1
  end + 1.

(** The error kinds and their status codes. *)
Definition MissingAuth (msg : string) : response := (ErrorBody msg, 401).
Definition InvalidInput (msg : string) : response := (ErrorBody msg, 400).
Definition NotFound (msg : string) : response := (ErrorBody msg, 404).
Definition StoreError (e : exn) : response := (ExceptionBody e, 500).

(** A present field of a partial update has the type of its column. *)
Definition text_or_absent (k : string) (fields : list (string * json)) : Prop :=
  match dict_lookup k fields with
  | None | Some (JStr _) => True
  | Some _ => False
  end.
Definition int_or_absent (k : string) (fields : list (string * json)) : Prop :=
  match dict_lookup k fields with
  | None | Some (JNum _) => True
  | Some _ => False
  end.

(** The value of a text field after a partial update. *)
Definition patched_text (k : string) (fields : list (string * json))
    (old : string) : string :=
  match dict_lookup k fields with Some (JStr s) => s | _ => old end.
Definition patched_int (k : string) (fields : list (string * json))
    (old : Z) : Z :=
  match dict_lookup k fields with Some (JNum n) => n | _ => old end.

(** The row a partial update makes of [r]: each of the four fields takes
    the value given for it, or keeps its own when the field is absent, and
    [updated_at] takes the reading of the clock. *)
Definition patched_image (fields : list (string * json)) (now : string)
    (r : image) : image :=
  mkImage (img_id r) (img_user_id r)
          (patched_text "title" fields (img_title r))
          (patched_text "image_url" fields (img_image_url r))
          (patched_text "description" fields (img_description r))
          (patched_int "display_order" fields (img_display_order r))
          (img_created_at r) now.

(** One [{id, order}] pair of a reorder, as the specification words it: the
    image with that id owned by [uid] takes the order, nothing else moves. *)
Definition apply_pair (uid : string) (imgs : list image) (p : string * Z)
  : list image :=
  map (fun r => if decide (img_id r = p.1 /\ img_user_id r = uid)
                then set_display_order p.2 r else r) imgs.

(** [item] is the JSON form of the pair [p]: its [order] is the integer of
    the pair, and its [id], of whatever JSON type, is the id of the pair once
    the client has formatted it into the filter. *)
Definition item_of_pair (item : json) (p : string * Z) : Prop :=
  (exists idv, py_getitem item "id" = Val idv /\ py_str idv = p.1) /\
  py_getitem item "order" = Val (JNum p.2).

(** The order a list of pairs leaves on image id [iid]: that of the last
    pair naming it, if any. *)
Fixpoint last_order_for (iid : string) (pairs : list (string * Z)) : option Z :=
  match pairs with
  | [] => None
  | p :: rest =>
      match last_order_for iid rest with
      | Some n => Some n
      | None => if decide (p.1 = iid) then Some p.2 else None
      end
  end.

(** What a reorder by [uid] makes of row [r]. *)
Definition reordered_row (uid : string) (pairs : list (string * Z))
    (r : image) : image :=
  if decide (img_user_id r = uid) then
    match last_order_for (img_id r) pairs with
    | Some n => set_display_order n r
    | None => r
    end
  else r.

(** The store update that [reorder_images] issues for [item] goes through,
    whatever the rows of the table are. *)
Definition item_update_succeeds (uid : string) (item : json) : Prop :=
  exists idv ordv,
    py_getitem item "order" = Val ordv /\
    py_getitem item "id" = Val idv /\
    forall st, exists st' rows,
      images_update_by_id_user [("display_order", ordv)] idv uid st
        = (st', Val rows).

(** ** A sample store: two guests, the first with two images *)

Definition alice : user := mkUser "u-alice" "tok-alice" "2024-12-01T10:00:00" "2024-12-01T10:00:00".
Definition bob : user := mkUser "u-bob" "tok-bob" "2024-12-01T11:00:00" "2024-12-01T11:00:00".

Definition img0 : image :=
  mkImage "img0" "u-alice" "Untitled" "http://x/1.png" "" 0
          "2024-12-01T10:05:00" "2024-12-01T10:05:00".
Definition img1 : image :=
  mkImage "img1" "u-alice" "Star" "http://x/2.png" "top" 1
          "2024-12-01T10:06:00" "2024-12-01T10:06:00".

Definition img2 : image :=
  mkImage "img2" "u-alice" "Bauble" "http://x/3.png" "" 2
          "2024-12-01T10:07:00" "2024-12-01T10:07:00".
Definition img3 : image :=
  mkImage "img3" "u-bob" "Candle" "http://y/1.png" "" 0
          "2024-12-01T11:05:00" "2024-12-01T11:05:00".

Definition sample_store : store := mkStore [alice; bob] [img0; img1].

(** A store whose image ids are numerals, as a serial key gives them. *)
Definition img5 : image :=
  mkImage "5" "u-alice" "Wreath" "http://x/5.png" "" 3
          "2024-12-01T10:08:00" "2024-12-01T10:08:00".
Definition img6 : image :=
  mkImage "6" "u-bob" "Sleigh" "http://y/6.png" "" 0
          "2024-12-01T11:06:00" "2024-12-01T11:06:00".
Definition numbered_store : store := mkStore [alice; bob] [img5; img6].

(** The same guests, the rows of the first inserted out of display order. *)
Definition shuffled_store : store := mkStore [alice; bob] [img2; img3; img0; img1].

(** ** The remaining routes: guest creation, upload, health

    These routes answer with bodies of their own, and the upload talks to
    the blob store as well.  The blob store is the second external service:
    a bucket is a list of objects, and an upload under a key that is taken
    is refused, which the client raises as an exception. *)

Inductive xexn : Type :=
| DbException (e : exn)
| StorageException.

Inductive xbody : Type :=
| Core (b : body)
| XExceptionBody (e : xexn)                             (* {"error": str(e)} *)
| GuestBody (guest_id : string) (user_id : option string)
| UploadBody (url filename : string)
| StatusBody (status : string).

Definition xresponse : Type := xbody * Z.

(** [table("users").insert({"guest_id": g, "created_at": tc,
    "last_accessed": ta}).execute().data]; [new_id] is the id the store
    generates for the row. *)
Definition users_insert (new_id g tc ta : string) : M (list user) :=
  fun st =>
    if decide (new_id ∈ map u_id (users st)) then (st, Raise APIError)
    else
      let row := mkUser new_id g tc ta in
      (set_users (users st ++ [row]) st, Val [row]).

(** [create_guest]; [guest_id] is the reading of [str(uuid.uuid4())],
    [t_created] and [t_accessed] the two readings of the clock. *)
Definition create_guest (guest_id t_created t_accessed new_id : string)
  : store -> store * xresponse :=
  fun st =>
    match users_insert new_id guest_id t_created t_accessed st with
    | (st', Val data) => (st', (GuestBody guest_id (head (map u_id data)), 201))
    | (st', Raise e) => (st', (XExceptionBody (DbException e), 500))
    end.

(** One part of [request.files]. *)
Record file_part : Type := mkFilePart {
  fp_filename : string;
  fp_content_type : string;
  fp_data : string
}.

Record blob : Type := mkBlob {
  blob_key : string;
  blob_content_type : string;
  blob_data : string
}.

(** The database and the bucket ["images"]. *)
Record world : Type := mkWorld {
  db : store;
  bucket : list blob
}.

(** What the handler takes from its platform: the extension that
    [os.path.splitext(name)[1]] returns and the public URL the blob store
    gives to a key. *)
Record platform : Type := mkPlatform {
  splitext_ext : string -> string;
  get_public_url : string -> string
}.

(** [request.files[k]], or [None] when [k not in request.files]. *)
Fixpoint files_lookup (k : string) (files : list (string * file_part))
  : option file_part :=
  match files with
  | [] => None
  | (k', f) :: rest => if String.eqb k k' then Some f else files_lookup k rest
  end.

(** [storage.from_("images").upload(key, data, {"content-type": ct})] *)
Definition storage_upload (key data ct : string) (objects : list blob)
  : option (list blob) :=
  if decide (key ∈ map blob_key objects) then None
  else Some (objects ++ [mkBlob key ct data])%list.

(** [upload_file]; [new_uuid] is the reading of [uuid.uuid4()]. *)
Definition upload_file (pf : platform) (new_uuid : string) (guest_id : string)
    (files : list (string * file_part)) : world -> world * xresponse :=
  fun w =>
    match files_lookup "file" files with
    | None => (w, (Core (ErrorBody "No file provided"), 400))
    | Some file =>
        if String.eqb (fp_filename file) ""
        then (w, (Core (ErrorBody "No file selected"), 400))
        else
          match users_select_id_by_guest guest_id (db w) with
          | (_, Raise e) => (w, (XExceptionBody (DbException e), 500))
          | (_, Val []) => (w, (Core (ErrorBody "User not found"), 404))
          | (_, Val (user_id :: _)) =>
              let file_ext := splitext_ext pf (fp_filename file) in
              let unique_filename :=
                String.append user_id
                  (String.append "/" (String.append new_uuid file_ext)) in
              match storage_upload unique_filename (fp_data file)
                      (fp_content_type file) (bucket w) with
              | None => (w, (XExceptionBody StorageException, 500))
              | Some objects =>
                  (mkWorld (db w) objects,
                   (UploadBody (get_public_url pf unique_filename)
                               unique_filename, 201))
              end
          end
    end.

Definition health : xresponse := (StatusBody "ok", 200).

(** [upload_file] as registered: [require_guest_id] again, on the state
    and the responses of this route. *)
Definition route_upload_file (pf : platform) (new_uuid : string)
    (hdr : option string) (files : list (string * file_part))
  : world -> world * xresponse :=
  match hdr with
  | Some guest_id =>
      if String.eqb guest_id ""
      then fun w => (w, (Core (ErrorBody "Guest ID required"), 401))
      else upload_file pf new_uuid guest_id files
  | None => fun w => (w, (Core (ErrorBody "Guest ID required"), 401))
  end.

(** ** Relations between the store before and after a request *)

(** A row keeps what identifies it: id, owner and creation time. *)
Definition same_identity (old new : image) : Prop :=
  img_id new = img_id old /\
  img_user_id new = img_user_id old /\
  img_created_at new = img_created_at old.

(** The keys [update_image] may put into [update_data]: never the owner,
    never the creation time. *)
Definition patch_key (kv : string * json) : Prop :=
  kv.1 <> "user_id" /\ kv.1 <> "created_at".

(** The loop body of [reorder_images] raises [e] on [item] before it sends
    any update: [item["order"]] raises, or [item["id"]] does (the item is not
    an object, or it lacks the key). *)
Definition item_fails (item : json) (e : exn) : Prop :=
  py_getitem item "order" = Raise e \/
  (exists o, py_getitem item "order" = Val o /\ py_getitem item "id" = Raise e).

(** A value over which a [for] loop runs no iteration. *)
Definition yields_no_item (v : json) : bool :=
  match v with
  | JStr EmptyString | JArr [] | JObj [] => true
  | _ => false
  end.

(** Two rows differ at most in [display_order]. *)
Definition same_but_order (old new : image) : Prop :=
  new = set_display_order (img_display_order new) old.

(** The integrity of the tables: image ids are unique and every image
    belongs to a user of the table [users]. *)
Definition store_ok (st : store) : Prop :=
  NoDup (map img_id (images st)) /\
  forall r, r ∈ images st -> img_user_id r ∈ map u_id (users st).

(** Every run of [m] takes a store to one related to it by [R], whether it
    returns or raises. *)
Definition preserves {A} (R : store -> store -> Prop) (m : M A) : Prop :=
  forall st, R st (m st).1.

(** Sample data for the upload. *)
Definition sample_platform : platform :=
  mkPlatform (fun name => if String.eqb name "tree.png" then ".png" else "")
             (fun key => String.append "https://blobs.example/images/" key).
Definition sample_world : world := mkWorld sample_store [].
Definition tree_png : file_part := mkFilePart "tree.png" "image/png" "PNGDATA".

(** ** Basic facts *)

Ltac run :=
  unfold try_except, mbind, M_bind, mret, M_ret, lift, raise,
    users_select_id_by_guest, users_select_by_guest,
    images_select_by_id_user, images_select_by_user_ordered,
    images_select_top_order, images_delete_by_id, users_touch; simpl.

Lemma resolve_some st g U :
  resolve st g = Some U ->
  exists rest, map u_id (filter (fun u => u_guest_id u = g) (users st)) = U :: rest.
Proof.
  unfold resolve. destruct (map u_id _) as [|x rest]; simpl; [discriminate|].
  intros [= ->]. eauto.
Qed.

Lemma resolve_none st g :
  resolve st g = None ->
  map u_id (filter (fun u => u_guest_id u = g) (users st)) = [].
Proof.
  unfold resolve. destruct (map u_id _); simpl; [reflexivity | discriminate].
Qed.

Lemma resolve_set_images st imgs g :
  resolve (set_images imgs st) g = resolve st g.
Proof. reflexivity. Qed.

Lemma set_images_same st : set_images (images st) st = st.
Proof. destruct st; reflexivity. Qed.

Lemma filter_nil_iff {A} (P : A -> Prop) `{forall x, Decision (P x)} (l : list A) :
  filter P l = [] <-> forall x, x ∈ l -> ~ P x.
Proof.
  split.
  - intros E x Hx HP.
    assert (x ∈ filter P l) as Hin by (apply list_elem_of_filter; auto).
    rewrite E in Hin. inversion Hin.
  - intros Hnone. destruct (filter P l) as [|y ys] eqn:E; [reflexivity|].
    assert (y ∈ filter P l) as Hin by (rewrite E; left).
    apply list_elem_of_filter in Hin as [HP Hy]. destruct (Hnone y Hy HP).
Qed.

(** The ownership check of [update_image] and [delete_image] on an image
    that is not the caller's. *)
Lemma update_image_denied st g U iid now data :
  resolve st g = Some U ->
  (forall r, r ∈ images st -> img_id r = iid -> img_user_id r <> U) ->
  update_image now g iid data st = (st, NotFound "Image not found or access denied").
Proof.
  intros [rest HU]%resolve_some Hforeign.
  unfold update_image. run. rewrite HU.
  assert (filter (fun r => img_id r = iid /\ img_user_id r = U) (images st) = []) as ->.
  { apply filter_nil_iff. intros r Hr [Hid Hu]. exact (Hforeign r Hr Hid Hu). }
  reflexivity.
Qed.

Lemma delete_image_denied st g U iid :
  resolve st g = Some U ->
  (forall r, r ∈ images st -> img_id r = iid -> img_user_id r <> U) ->
  delete_image g iid st = (st, NotFound "Image not found or access denied").
Proof.
  intros [rest HU]%resolve_some Hforeign.
  unfold delete_image. run. rewrite HU.
  assert (filter (fun r => img_id r = iid /\ img_user_id r = U) (images st) = []) as ->.
  { apply filter_nil_iff. intros r Hr [Hid Hu]. exact (Hforeign r Hr Hid Hu). }
  reflexivity.
Qed.

(** [create_image] stops at the validation of [image_url], whoever asks. *)
Lemma create_image_invalid st g fields tc tu nid :
  truthy (default JNull (dict_lookup "image_url" fields)) = false ->
  create_image tc tu nid g (JObj fields) st = (st, InvalidInput "image_url is required").
Proof.
  intros Hfalsy. unfold create_image. run.
  unfold py_get, py_get_default. simpl. rewrite Hfalsy. reflexivity.
Qed.

(** ** Ownership scoping of update and delete *)

(** C1. For a resolved user [U] and an image id [iid] that exists but whose
    rows all belong to other users, [update_image] and [delete_image] called
    by [U] answer 404 "Image not found or access denied" and the store they
    leave is the store they found: no image record has changed. *)
Theorem foreign_image_update_delete_not_found st g U iid now data :
  resolve st g = Some U ->
  (exists r, r ∈ images st /\ img_id r = iid) ->
  (forall r, r ∈ images st -> img_id r = iid -> img_user_id r <> U) ->
  update_image now g iid data st
    = (st, NotFound "Image not found or access denied") /\
  delete_image g iid st
    = (st, NotFound "Image not found or access denied").
Proof.
  intros HU _ Hforeign. split.
  - eapply update_image_denied; eauto.
  - eapply delete_image_denied; eauto.
Qed.

Lemma foreign_image_update_delete_not_found_witness :
  update_image "2024-12-02T09:00:00" "tok-bob" "img0"
      (JObj [("title", JStr "mine now")]) sample_store
    = (sample_store, NotFound "Image not found or access denied") /\
  delete_image "tok-bob" "img0" sample_store
    = (sample_store, NotFound "Image not found or access denied").
Proof.
  apply (foreign_image_update_delete_not_found sample_store "tok-bob" "u-bob").
  - reflexivity.
  - exists img0. split; [left | reflexivity].
  - apply (Forall_forall (fun r => img_id r = "img0" -> img_user_id r <> "u-bob")).
    repeat constructor; simpl; intros _; discriminate.
Defined.

(** ** Unregistered tokens *)

Lemma create_image_unregistered st g fields tc tu nid :
  resolve st g = None ->
  truthy (default JNull (dict_lookup "image_url" fields)) = true ->
  create_image tc tu nid g (JObj fields) st = (st, NotFound "User not found").
Proof.
  intros HU%resolve_none Htruthy. unfold create_image. run.
  unfold py_get, py_get_default. simpl. rewrite Htruthy. simpl.
  rewrite HU. reflexivity.
Qed.

(** C2, as the code has it.  With an unregistered token, [get_images] and
    [delete_image], [update_image] on any parsed body, and [reorder_images]
    on a JSON-object body, answer 404 "User not found" and leave the store as
    it was.  [create_image] validates [image_url] before it resolves the
    token: on a JSON-object body it answers 400 "image_url is required" when
    [image_url] is absent or is a value Python holds false (null, false, 0,
    the empty string, the empty array, the empty object), and 404 "User not
    found" when it is any other value, the store unchanged in both cases. *)
Theorem unregistered_token_outcomes st g :
  resolve st g = None ->
  get_images g st = (st, NotFound "User not found") /\
  (forall now iid data,
     update_image now g iid data st = (st, NotFound "User not found")) /\
  (forall iid, delete_image g iid st = (st, NotFound "User not found")) /\
  (forall fields,
     reorder_images g (JObj fields) st = (st, NotFound "User not found")) /\
  (forall tc tu nid fields,
     create_image tc tu nid g (JObj fields) st =
       (st, if truthy (default JNull (dict_lookup "image_url" fields))
            then NotFound "User not found"
            else InvalidInput "image_url is required")) /\
  (forall v,
     truthy v = false <->
     v = JNull \/ v = JBool false \/ v = JNum 0 \/ v = JStr "" \/
     v = JArr [] \/ v = JObj []).
Proof.
  intros HU. pose proof (resolve_none _ _ HU) as Hnone.
  refine (conj _ (conj _ (conj _ (conj _ (conj _ _))))); intros.
  - unfold get_images. run. rewrite Hnone. reflexivity.
  - unfold update_image. run. rewrite Hnone. reflexivity.
  - unfold delete_image. run. rewrite Hnone. reflexivity.
  - unfold reorder_images. run. rewrite Hnone. reflexivity.
  - destruct (truthy _) eqn:E.
    + apply create_image_unregistered; assumption.
    + apply create_image_invalid; assumption.
  - split.
    + destruct v as [|[|]|n|s|[|x l]|[|x l]]; simpl; intros H;
        try discriminate; auto 10.
      * apply negb_false_iff, Z.eqb_eq in H. subst n. auto 10.
      * apply negb_false_iff, String.eqb_eq in H. subst s. auto 10.
    + intros [-> | [-> | [-> | [-> | [-> | ->]]]]]; reflexivity.
Qed.

Lemma unregistered_token_outcomes_witness :
  get_images "tok-nobody" sample_store
    = (sample_store, NotFound "User not found") /\
  create_image "t" "t" "img9" "tok-nobody"
      (JObj [("image_url", JStr "http://x/9.png")]) sample_store
    = (sample_store, NotFound "User not found") /\
  create_image "t" "t" "img9" "tok-nobody"
      (JObj [("image_url", JNum 0)]) sample_store
    = (sample_store, InvalidInput "image_url is required").
Proof.
  destruct (unregistered_token_outcomes sample_store "tok-nobody" eq_refl)
    as (Hlist & _ & _ & _ & Hcreate & _).
  split; [exact Hlist|]. split.
  - exact (Hcreate "t" "t" "img9" [("image_url", JStr "http://x/9.png")]).
  - exact (Hcreate "t" "t" "img9" [("image_url", JNum 0)]).
Defined.

(** C2 as stated fails on [create_image]: with an unregistered token and an
    empty [image_url] the answer is 400 "image_url is required", not 404. *)
Lemma create_unregistered_empty_url_is_invalid_input :
  resolve sample_store "tok-nobody" = None /\
  create_image "t" "t" "img9" "tok-nobody" (JObj [("image_url", JStr "")])
      sample_store
    = (sample_store, InvalidInput "image_url is required") /\
  snd (create_image "t" "t" "img9" "tok-nobody" (JObj [("image_url", JStr "")])
         sample_store)
    <> NotFound "User not found".
Proof. repeat split. discriminate. Qed.

(** ** Validation of create *)

(** C7. For a resolved user, [create_image] on a body whose [image_url] is
    absent or the empty string answers 400 "image_url is required" and the
    store is unchanged: no row is inserted. *)
Theorem create_without_image_url_invalid_input st g U fields tc tu nid :
  resolve st g = Some U ->
  dict_lookup "image_url" fields = None \/
  dict_lookup "image_url" fields = Some (JStr "") ->
  create_image tc tu nid g (JObj fields) st
    = (st, InvalidInput "image_url is required").
Proof.
  intros _ Hurl. apply create_image_invalid.
  destruct Hurl as [-> | ->]; reflexivity.
Qed.

Lemma create_without_image_url_invalid_input_witness :
  create_image "t" "t" "img9" "tok-alice" (JObj [("title", JStr "Tree")])
      sample_store
    = (sample_store, InvalidInput "image_url is required") /\
  create_image "t" "t" "img9" "tok-alice"
      (JObj [("title", JStr "Tree"); ("image_url", JStr "")]) sample_store
    = (sample_store, InvalidInput "image_url is required").
Proof.
  split.
  - apply (create_without_image_url_invalid_input sample_store "tok-alice" "u-alice");
      [reflexivity | left; reflexivity].
  - apply (create_without_image_url_invalid_input sample_store "tok-alice" "u-alice");
      [reflexivity | right; reflexivity].
Defined.

(** ** Ordering *)

Global Instance asc_total : Total asc.
Proof. intros a b. unfold asc. lia. Qed.
Global Instance asc_trans : Transitive asc.
Proof. intros a b c. unfold asc. lia. Qed.
Global Instance desc_total : Total desc.
Proof. intros a b. unfold desc. lia. Qed.
Global Instance desc_trans : Transitive desc.
Proof. intros a b c. unfold desc. lia. Qed.

(** What [order("display_order", desc=True).limit(1)] returns: nothing on an
    empty selection, otherwise a row of greatest [display_order]. *)
Lemma top_of_desc_sort (l : list image) :
  match take 1 (merge_sort desc l) with
  | [] => l = []
  | m :: _ => m ∈ l /\ forall r, r ∈ l -> img_display_order r <= img_display_order m
  end.
Proof.
  pose proof (merge_sort_Permutation desc l) as Hperm.
  pose proof (StronglySorted_merge_sort desc l) as Hsorted.
  destruct (merge_sort desc l) as [|m s]; simpl.
  - symmetry in Hperm. apply Permutation_nil_r in Hperm. exact Hperm.
  - split.
    + rewrite <- Hperm. left.
    + intros r Hr. rewrite <- Hperm in Hr.
      apply StronglySorted_cons in Hsorted as [Hall _].
      apply elem_of_cons in Hr as [-> | Hr]; [lia|].
      rewrite Forall_forall in Hall. exact (Hall r Hr).
Qed.

Lemma next_order_spec st uid :
  (owned_images st uid = [] /\ next_order st uid = 0) \/
  (exists m, m ∈ owned_images st uid /\
             (forall r, r ∈ owned_images st uid ->
                        img_display_order r <= img_display_order m) /\
             next_order st uid = img_display_order m + 1).
Proof.
  unfold next_order.
  pose proof (top_of_desc_sort (owned_images st uid)) as Htop.
  destruct (take 1 (merge_sort desc (owned_images st uid))) as [|m rest]; simpl.
  - left. split; [exact Htop | reflexivity].
  - right. exists m. destruct Htop as [Hin Hmax]. auto.
Qed.

(** A successful [create_image], with the row it inserts. *)
Lemma create_image_ok st g U fields url tc tu nid :
  resolve st g = Some U ->
  dict_lookup "image_url" fields = Some (JStr url) ->
  url <> "" ->
  text_or_absent "title" fields ->
  text_or_absent "description" fields ->
  nid ∉ map img_id (images st) ->
  let row := mkImage nid U (patched_text "title" fields "Untitled") url
                     (patched_text "description" fields "")
                     (next_order st U) tc tu in
  create_image tc tu nid g (JObj fields) st
    = (set_images (images st ++ [row]) st, (ImageBody row, 201)).
Proof.
  intros [rest HU]%resolve_some Hurl Hne Htitle Hdesc Hfresh row. subst row.
  unfold create_image. run. unfold py_get, py_get_default. simpl.
  rewrite Hurl. simpl.
  assert (String.eqb url "" = false) as -> by (apply String.eqb_neq; exact Hne).
  simpl. rewrite HU.
  unfold images_insert, text_or_absent, patched_text, next_order, owned_images in *.
  destruct (dict_lookup "title" fields) as [[]|];
    destruct (dict_lookup "description" fields) as [[]|];
    try contradiction; simpl;
    (destruct (decide (nid ∈ map img_id (images st))); [contradiction|]);
    reflexivity.
Qed.

(** C3. For a resolved user, a successful [create_image] inserts a row
    whose [display_order] is 0 when the user owns no image and otherwise one
    more than the greatest [display_order] among the user's images; with
    images at orders 0, 1 and 2, in any table order, the new order is 3. *)
Theorem create_assigns_max_order_plus_one st g U fields url tc tu nid :
  resolve st g = Some U ->
  dict_lookup "image_url" fields = Some (JStr url) ->
  url <> "" ->
  text_or_absent "title" fields ->
  text_or_absent "description" fields ->
  nid ∉ map img_id (images st) ->
  exists row,
    create_image tc tu nid g (JObj fields) st
      = (set_images (images st ++ [row]) st, (ImageBody row, 201)) /\
    img_user_id row = U /\
    ((owned_images st U = [] /\ img_display_order row = 0) \/
     (exists m, m ∈ owned_images st U /\
                (forall r, r ∈ owned_images st U ->
                           img_display_order r <= img_display_order m) /\
                img_display_order row = img_display_order m + 1)) /\
    (map img_display_order (owned_images st U) ≡ₚ [0; 1; 2] ->
     img_display_order row = 3).
Proof.
  intros HU Hurl Hne Htitle Hdesc Hfresh.
  eexists. split; [apply (create_image_ok st g U fields url); assumption|].
  simpl. split; [reflexivity|].
  pose proof (next_order_spec st U) as Hnext.
  split; [exact Hnext|].
  intros Hperm. destruct Hnext as [[Hnil _] | (m & Hm & Hmax & ->)].
  - rewrite Hnil in Hperm. simpl in Hperm.
    apply Permutation_nil_l in Hperm. discriminate.
  - assert (img_display_order m ∈ [0; 1; 2]) as Hin.
    { rewrite <- Hperm. apply list_elem_of_fmap. eauto. }
    assert (2 ∈ map img_display_order (owned_images st U)) as Htwo.
    { rewrite Hperm. do 2 right. left. }
    apply list_elem_of_fmap in Htwo as (r & Hr2 & Hr).
    specialize (Hmax r Hr).
    repeat (apply elem_of_cons in Hin as [Hin | Hin]); try lia.
    inversion Hin.
Qed.

Lemma create_assigns_max_order_plus_one_witness :
  exists row,
    create_image "2024-12-02T09:00:00" "2024-12-02T09:00:01" "img4" "tok-alice"
        (JObj [("image_url", JStr "http://x/4.png")]) shuffled_store
      = (set_images (images shuffled_store ++ [row]) shuffled_store,
         (ImageBody row, 201)) /\
    img_display_order row = 3.
Proof.
  destruct (create_assigns_max_order_plus_one shuffled_store "tok-alice" "u-alice"
              [("image_url", JStr "http://x/4.png")] "http://x/4.png"
              "2024-12-02T09:00:00" "2024-12-02T09:00:01" "img4")
    as (row & Hrun & _ & _ & Hthree).
  - reflexivity.
  - reflexivity.
  - discriminate.
  - exact I.
  - exact I.
  - vm_compute. intros H. repeat (inversion H as [|? ? ? H']; subst; clear H; rename H' into H);
      inversion H.
  - exists row. split; [exact Hrun|]. apply Hthree.
    vm_compute. etrans; [apply perm_swap | apply perm_skip, perm_swap].
Defined.

(** ** Listing *)

Lemma get_images_ok st g U :
  resolve st g = Some U ->
  get_images g st = (st, (ImagesBody (merge_sort asc (owned_images st U)), 200)).
Proof.
  intros [rest HU]%resolve_some. unfold get_images. run. rewrite HU. reflexivity.
Qed.

Lemma sorted_orders_unique (l1 l2 : list image) :
  StronglySorted asc l1 -> StronglySorted asc l2 -> l1 ≡ₚ l2 ->
  map img_display_order l1 = map img_display_order l2.
Proof.
  intros H1 H2 Hperm.
  apply (StronglySorted_unique_strong Z.le).
  - intros x y _ _ Hxy Hyx. lia.
  - apply (StronglySorted_fmap _ asc); [|exact H1]. intros a b Hab. exact Hab.
  - apply (StronglySorted_fmap _ asc); [|exact H2]. intros a b Hab. exact Hab.
  - apply fmap_Permutation. exact Hperm.
Qed.

(** C4. For a resolved user, [get_images] answers 200 with exactly the
    rows of the user (as a multiset, and so as a set), in ascending
    [display_order]; it answers the empty sequence, still 200, when the user
    owns nothing; and the sequence of orders it returns is the same for
    every insertion order of the table. *)
Theorem list_returns_owned_images_sorted st g U :
  resolve st g = Some U ->
  exists rows,
    get_images g st = (st, (ImagesBody rows, 200)) /\
    rows ≡ₚ owned_images st U /\
    (forall r, r ∈ rows <-> r ∈ images st /\ img_user_id r = U) /\
    StronglySorted (fun a b => img_display_order a <= img_display_order b) rows /\
    (owned_images st U = [] -> rows = []) /\
    (forall imgs', imgs' ≡ₚ images st ->
       exists rows',
         get_images g (set_images imgs' st)
           = (set_images imgs' st, (ImagesBody rows', 200)) /\
         rows' ≡ₚ rows /\
         map img_display_order rows' = map img_display_order rows).
Proof.
  intros HU. exists (merge_sort asc (owned_images st U)).
  pose proof (merge_sort_Permutation asc (owned_images st U)) as Hperm.
  pose proof (StronglySorted_merge_sort asc (owned_images st U)) as Hsorted.
  split; [apply get_images_ok; exact HU|].
  split; [exact Hperm|].
  split.
  { intros r. rewrite Hperm. unfold owned_images.
    rewrite list_elem_of_filter. tauto. }
  split; [exact Hsorted|].
  split.
  { intros Hnil. rewrite Hnil. reflexivity. }
  intros imgs' Himgs.
  exists (merge_sort asc (owned_images (set_images imgs' st) U)).
  assert (merge_sort asc (owned_images (set_images imgs' st) U)
            ≡ₚ merge_sort asc (owned_images st U)) as Hsame.
  { rewrite !merge_sort_Permutation. unfold owned_images. simpl.
    rewrite Himgs. reflexivity. }
  split; [apply get_images_ok; rewrite resolve_set_images; exact HU|].
  split; [exact Hsame|].
  apply sorted_orders_unique; [apply StronglySorted_merge_sort; apply _ | exact Hsorted | exact Hsame].
Qed.

Lemma list_returns_owned_images_sorted_witness :
  get_images "tok-alice" shuffled_store
    = (shuffled_store, (ImagesBody [img0; img1; img2], 200)).
Proof.
  destruct (list_returns_owned_images_sorted shuffled_store "tok-alice" "u-alice"
              eq_refl) as (rows & Hrun & _).
  rewrite Hrun. vm_compute in Hrun. injection Hrun as <-. reflexivity.
Defined.

(** ** Deleting *)

Lemma filter_cons_of_elem {A} (P : A -> Prop) `{forall x, Decision (P x)}
    (l : list A) (x : A) :
  x ∈ l -> P x -> exists y ys, filter P l = y :: ys.
Proof.
  intros Hx HP.
  destruct (filter P l) as [|y ys] eqn:E; [|eauto].
  exfalso. apply (proj1 (filter_nil_iff P l) E x Hx HP).
Qed.

Lemma delete_image_ok st g U iid :
  resolve st g = Some U ->
  (exists r, r ∈ images st /\ img_id r = iid /\ img_user_id r = U) ->
  delete_image g iid st
    = (set_images (filter (fun r => img_id r <> iid) (images st)) st,
       (MessageBody "Image deleted", 200)).
Proof.
  intros [rest HU]%resolve_some (r & Hr & Hid & Huid).
  unfold delete_image. run. rewrite HU.
  destruct (filter_cons_of_elem
              (fun r => img_id r = iid /\ img_user_id r = U) (images st) r Hr)
    as (y & ys & ->); [split; assumption|].
  reflexivity.
Qed.

(** C8. For a resolved user and an image the user owns, [delete_image]
    answers 200; the list that follows for the same user does not contain the
    deleted id; a second delete of the id answers 404 "Image not found or
    access denied". *)
Theorem delete_then_list_then_delete_again st g U iid :
  resolve st g = Some U ->
  (exists r, r ∈ images st /\ img_id r = iid /\ img_user_id r = U) ->
  exists st',
    delete_image g iid st = (st', (MessageBody "Image deleted", 200)) /\
    (exists rows,
       get_images g st' = (st', (ImagesBody rows, 200)) /\
       iid ∉ map img_id rows) /\
    delete_image g iid st'
      = (st', NotFound "Image not found or access denied").
Proof.
  intros HU Hown.
  set (st' := set_images (filter (fun r => img_id r <> iid) (images st)) st).
  assert (resolve st' g = Some U) as HU' by exact HU.
  assert (forall r, r ∈ images st' -> img_id r <> iid) as Hgone.
  { intros r Hr. apply list_elem_of_filter in Hr as [Hne _]. exact Hne. }
  exists st'. split; [apply (delete_image_ok st g U); assumption|]. split.
  - exists (merge_sort asc (owned_images st' U)).
    split; [apply get_images_ok; exact HU'|].
    intros Hin. apply list_elem_of_fmap in Hin as (r & Hid & Hr).
    rewrite merge_sort_Permutation in Hr.
    apply list_elem_of_filter in Hr as [_ Hr].
    apply (Hgone r Hr). symmetry. exact Hid.
  - apply (delete_image_denied st' g U); [exact HU'|].
    intros r Hr Hid. destruct (Hgone r Hr Hid).
Qed.

Lemma delete_then_list_then_delete_again_witness :
  exists st',
    delete_image "tok-alice" "img0" sample_store
      = (st', (MessageBody "Image deleted", 200)) /\
    (exists rows,
       get_images "tok-alice" st' = (st', (ImagesBody rows, 200)) /\
       "img0" ∉ map img_id rows) /\
    delete_image "tok-alice" "img0" st'
      = (st', NotFound "Image not found or access denied").
Proof.
  apply (delete_then_list_then_delete_again sample_store "tok-alice" "u-alice").
  - reflexivity.
  - exists img0. split; [left | split; reflexivity].
Defined.

(** ** Verifying a guest *)

(** C9. [verify_guest] answers 404 when no user row carries the token.
    Otherwise it answers 200 with the id, token and [created_at] of the user
    row it found, and the store it leaves has the same images and the same
    user rows, where every row keeps its id, token and [created_at] and
    the rows with the id of the verified user have [last_accessed] set to
    the reading of the clock. *)
Theorem verify_guest_not_found_or_touch st g now :
  (lookup_user st g = None <-> forall u, u ∈ users st -> u_guest_id u <> g) /\
  match lookup_user st g with
  | None => verify_guest now g st = (st, NotFound "Guest not found")
  | Some u =>
      u ∈ users st /\ u_guest_id u = g /\
      exists st',
        verify_guest now g st
          = (st', (UserBody (u_id u) (u_guest_id u) (u_created_at u), 200)) /\
        images st' = images st /\
        Forall2 (fun old new =>
                   u_id new = u_id old /\
                   u_guest_id new = u_guest_id old /\
                   u_created_at new = u_created_at old /\
                   u_last_accessed new =
                     if decide (u_id old = u_id u) then now
                     else u_last_accessed old)
                (users st) (users st')
  end.
Proof.
  unfold lookup_user, verify_guest. run. split.
  - rewrite <- (filter_nil_iff (fun u => u_guest_id u = g)).
    destruct (filter _ (users st)); simpl; split; congruence.
  - destruct (filter (fun u => u_guest_id u = g) (users st)) as [|u rest] eqn:E;
      simpl; [reflexivity|].
    assert (u ∈ filter (fun u => u_guest_id u = g) (users st)) as Hu
      by (rewrite E; left).
    apply list_elem_of_filter in Hu as [Hg Hu].
    split; [exact Hu|]. split; [exact Hg|].
    eexists. split; [reflexivity|]. split; [reflexivity|]. simpl.
    apply Forall2_fmap_r, Forall_Forall2_diag, Forall_forall.
    intros x _. unfold compose.
    destruct (decide (u_id x = u_id u)); simpl; auto.
Qed.

Lemma verify_guest_not_found_or_touch_witness :
  verify_guest "2024-12-02T09:00:00" "tok-nobody" sample_store
    = (sample_store, NotFound "Guest not found") /\
  snd (verify_guest "2024-12-02T09:00:00" "tok-bob" sample_store)
    = (UserBody "u-bob" "tok-bob" "2024-12-01T11:00:00", 200).
Proof.
  split.
  - exact (proj2 (verify_guest_not_found_or_touch sample_store "tok-nobody"
                    "2024-12-02T09:00:00")).
  - destruct (proj2 (verify_guest_not_found_or_touch sample_store "tok-bob"
                       "2024-12-02T09:00:00")) as (_ & _ & st' & Hrun & _).
    rewrite Hrun. reflexivity.
Defined.

(** ** Updating *)

Lemma filter_unique_id (l : list image) (r : image) :
  NoDup (map img_id l) -> r ∈ l ->
  filter (fun x => img_id x = img_id r) l = [r].
Proof.
  induction l as [|a l IH]; intros Hnd Hr; [inversion Hr|].
  simpl in Hnd. apply NoDup_cons in Hnd as [Ha Hnd].
  apply elem_of_cons in Hr as [-> | Hr].
  - rewrite filter_cons_True by reflexivity. f_equal.
    apply filter_nil_iff. intros x Hx Hid. apply Ha.
    rewrite <- Hid. apply list_elem_of_fmap. eauto.
  - rewrite filter_cons_False; [apply IH; assumption|].
    intros Hid. apply Ha. rewrite Hid. apply list_elem_of_fmap. eauto.
Qed.

Lemma same_id_same_row (l : list image) (r x : image) :
  NoDup (map img_id l) -> r ∈ l -> x ∈ l -> img_id x = img_id r -> x = r.
Proof.
  intros Hnd Hr Hx Hid.
  assert (x ∈ filter (fun y => img_id y = img_id r) l) as Hin
    by (apply list_elem_of_filter; auto).
  rewrite (filter_unique_id l r Hnd Hr) in Hin.
  apply list_elem_of_singleton in Hin. exact Hin.
Qed.

(** C5. For a resolved user, an image [r] the user owns (ids being unique
    in the table) and a partial update whose present fields have the type of
    their column, [update_image] answers 200 with the updated row and
    replaces [r] by it, every other row unchanged.  The updated row has, for
    each of [title], [description], [image_url] and [display_order], the
    value of the input when the field is present and the value of [r] when it
    is absent; its [updated_at] is the reading of the clock; its id, owner
    and [created_at] are those of [r]. *)
Theorem update_overwrites_present_fields st g U r fields now :
  resolve st g = Some U ->
  NoDup (map img_id (images st)) ->
  r ∈ images st ->
  img_user_id r = U ->
  text_or_absent "title" fields ->
  text_or_absent "description" fields ->
  text_or_absent "image_url" fields ->
  int_or_absent "display_order" fields ->
  update_image now g (img_id r) (JObj fields) st
    = (set_images
         (map (fun x => if decide (img_id x = img_id r)
                        then patched_image fields now r else x) (images st)) st,
       (ImageBody (patched_image fields now r), 200)).
Proof.
  intros [rest HU]%resolve_some Hnd Hr Hown Ht Hd Hi Ho.
  unfold update_image. run. rewrite HU.
  destruct (filter_cons_of_elem
              (fun x => img_id x = img_id r /\ img_user_id x = U) (images st) r Hr)
    as (y & ys & ->); [split; [reflexivity | assumption]|].
  unfold copy_if_present, images_update, patched_image, patched_text, patched_int,
    text_or_absent, int_or_absent in *. run. unfold dict_has.
  pose proof (filter_unique_id _ r Hnd Hr) as Hone.
  assert (forall w : image -> image,
            map (fun x => if decide (img_id x = img_id r) then w x else x) (images st)
            = map (fun x => if decide (img_id x = img_id r) then w r else x) (images st))
    as Hmap.
  { intros w. apply map_ext_in. intros x Hx%list_elem_of_In.
    destruct (decide (img_id x = img_id r)) as [Hid|]; [|reflexivity].
    rewrite (same_id_same_row _ r x Hnd Hr Hx Hid). reflexivity. }
  destruct (dict_lookup "title" fields) as [[]|];
    destruct (dict_lookup "description" fields) as [[]|];
    destruct (dict_lookup "image_url" fields) as [[]|];
    destruct (dict_lookup "display_order" fields) as [[]|];
    try contradiction; simpl; rewrite Hone; simpl; rewrite Hmap; reflexivity.
Qed.

Lemma update_overwrites_present_fields_witness :
  snd (update_image "2024-12-02T09:00:00" "tok-alice" "img1"
         (JObj [("title", JStr "Angel"); ("display_order", JNum 7)]) sample_store)
    = (ImageBody (mkImage "img1" "u-alice" "Angel" "http://x/2.png" "top" 7
                          "2024-12-01T10:06:00" "2024-12-02T09:00:00"), 200).
Proof.
  assert (NoDup (map img_id (images sample_store))) as Hnd by compute_done.
  assert (img1 ∈ images sample_store) as Hin by (right; left).
  exact (f_equal snd
           (update_overwrites_present_fields sample_store "tok-alice" "u-alice" img1
              [("title", JStr "Angel"); ("display_order", JNum 7)]
              "2024-12-02T09:00:00" eq_refl Hnd Hin eq_refl I I I I)).
Defined.

(** ** Reordering *)

Lemma reorder_item_pair U item p st :
  item_of_pair item p ->
  reorder_item U item st = (set_images (apply_pair U (images st) p) st, Val tt).
Proof.
  intros [(idv & Hid & Hstr) Hord]. destruct p as [iid n]. simpl in *. subst iid.
  unfold reorder_item. run. rewrite Hord, Hid. reflexivity.
Qed.

Lemma reorder_loop_pairs U items pairs :
  Forall2 item_of_pair items pairs ->
  forall st,
    reorder_loop U items st
      = (set_images (fold_left (apply_pair U) pairs (images st)) st, Val tt).
Proof.
  induction 1 as [|item p items pairs Hp _ IH]; intros st; simpl.
  - rewrite set_images_same. reflexivity.
  - unfold mbind, M_bind. rewrite (reorder_item_pair U item p st Hp).
    rewrite IH. reflexivity.
Qed.

Lemma reorder_images_pairs st g U fields items pairs :
  resolve st g = Some U ->
  default (JArr []) (dict_lookup "order" fields) = JArr items ->
  Forall2 item_of_pair items pairs ->
  reorder_images g (JObj fields) st
    = (set_images (fold_left (apply_pair U) pairs (images st)) st,
       (MessageBody "Reordered", 200)).
Proof.
  intros [rest HU]%resolve_some Hlist Hpairs.
  unfold reorder_images. run. rewrite HU, Hlist. simpl.
  unfold mbind, M_bind. rewrite (reorder_loop_pairs U items pairs Hpairs).
  reflexivity.
Qed.

Lemma last_order_for_other p pairs iid :
  p.1 <> iid ->
  last_order_for iid (p :: pairs) = last_order_for iid pairs.
Proof.
  intros Hne. simpl. destruct (last_order_for iid pairs); [reflexivity|].
  destruct (decide (p.1 = iid)); [contradiction | reflexivity].
Qed.

Lemma fold_apply_pair U pairs :
  forall imgs,
    fold_left (apply_pair U) pairs imgs = map (reordered_row U pairs) imgs.
Proof.
  induction pairs as [|p pairs IH]; intros imgs; simpl.
  - symmetry. etrans; [|apply map_id]. apply map_ext. intros r.
    unfold reordered_row. simpl. destruct (decide _); reflexivity.
  - rewrite IH. unfold apply_pair. rewrite map_map. apply map_ext. intros r.
    destruct (decide (img_id r = p.1 /\ img_user_id r = U)) as [[Hid Hu] | Hno].
    + unfold reordered_row. simpl.
      destruct (decide (img_user_id r = U)); [|contradiction].
      destruct (last_order_for (img_id r) pairs); [reflexivity|].
      destruct (decide (p.1 = img_id r)); [reflexivity | congruence].
    + unfold reordered_row.
      destruct (decide (img_user_id r = U)) as [Hu|]; [|reflexivity].
      rewrite last_order_for_other; [reflexivity|].
      intros Hid. apply Hno. split; [symmetry; exact Hid | exact Hu].
Qed.

Lemma apply_pair_not_owned U imgs p :
  (forall r, r ∈ imgs -> img_id r = p.1 -> img_user_id r <> U) ->
  apply_pair U imgs p = imgs.
Proof.
  intros Hno. unfold apply_pair. etrans; [|apply map_id].
  apply map_ext_in. intros r Hr%list_elem_of_In.
  destruct (decide _) as [[Hid Hu]|]; [|reflexivity].
  destruct (Hno r Hr Hid Hu).
Qed.

Lemma apply_pair_owned U imgs p r :
  r ∈ imgs -> img_id r = p.1 -> img_user_id r = U ->
  set_display_order p.2 r ∈ apply_pair U imgs p.
Proof.
  intros Hr Hid Hu. unfold apply_pair. apply list_elem_of_fmap.
  exists r. split; [|exact Hr].
  destruct (decide _) as [|Hno]; [reflexivity|]. destruct Hno. auto.
Qed.

Lemma item_of_pair_update_succeeds U item p :
  item_of_pair item p -> item_update_succeeds U item.
Proof.
  intros [(idv & Hid & _) Hord]. exists idv, (JNum p.2).
  split; [exact Hord|]. split; [exact Hid|].
  intros st. eexists _, _. reflexivity.
Qed.

Lemma reorder_loop_all_succeed U items :
  (forall item st, item ∈ items -> exists st', reorder_item U item st = (st', Val tt)) ->
  forall st, exists st', reorder_loop U items st = (st', Val tt).
Proof.
  induction items as [|item items IH]; intros Hok st; simpl.
  - exists st. reflexivity.
  - unfold mbind, M_bind.
    destruct (Hok item st) as [st1 ->]; [left|].
    apply IH. intros x st0 Hx. apply Hok. right. exact Hx.
Qed.

(** Make [item_of_pair] goals on literal items. *)
Ltac pairs_of_literals :=
  repeat (constructor;
          try (split; [eexists; split; reflexivity | reflexivity])).

(** C6. For a resolved user [U] and an order list of pairs, items with an
    [id] of any JSON type and an integer [order], every store update the
    loop issues goes through and [reorder_images] answers 200 "Reordered".
    The table it leaves is the table it found with the pairs applied one
    after the other: a pair sets the [display_order] of the image with its
    id when [U] owns it, and changes nothing, raising nothing, when [U] owns
    no image with that id.  Row by row: an image of [U] named in the list
    takes the order of the last pair naming it; every other row is
    unchanged.  And whatever the items are, the request answers 200 as soon
    as no run of the loop body raises. *)
Theorem reorder_updates_owned_pairs_only st g U fields items pairs :
  resolve st g = Some U ->
  dict_lookup "order" fields = Some (JArr items) ->
  Forall2 item_of_pair items pairs ->
  Forall (item_update_succeeds U) items /\
  reorder_images g (JObj fields) st
    = (set_images (fold_left (apply_pair U) pairs (images st)) st,
       (MessageBody "Reordered", 200)) /\
  fold_left (apply_pair U) pairs (images st)
    = map (reordered_row U pairs) (images st) /\
  (forall imgs p r,
     r ∈ imgs -> img_id r = p.1 -> img_user_id r = U ->
     set_display_order p.2 r ∈ apply_pair U imgs p) /\
  (forall imgs p,
     (forall r, r ∈ imgs -> img_id r = p.1 -> img_user_id r <> U) ->
     apply_pair U imgs p = imgs) /\
  (forall fields0 items0,
     dict_lookup "order" fields0 = Some (JArr items0) ->
     (forall item st0, item ∈ items0 ->
        exists st1, reorder_item U item st0 = (st1, Val tt)) ->
     (reorder_images g (JObj fields0) st).2 = (MessageBody "Reordered", 200)).
Proof.
  intros HU Hlist Hpairs. split.
  { clear Hlist. induction Hpairs as [|item p items pairs Hp _ IH]; constructor;
      [eapply item_of_pair_update_succeeds; exact Hp | exact IH]. }
  split.
  { apply (reorder_images_pairs st g U fields items pairs);
      [exact HU | rewrite Hlist; reflexivity | exact Hpairs]. }
  split; [apply fold_apply_pair|].
  split; [apply apply_pair_owned|].
  split; [apply apply_pair_not_owned|].
  intros fields0 items0 Hlist0 Hok.
  destruct (resolve_some st g U HU) as [rest HU'].
  unfold reorder_images. run. rewrite HU', Hlist0. simpl.
  unfold mbind, M_bind.
  destruct (reorder_loop_all_succeed U items0 Hok st) as [st' ->]. reflexivity.
Qed.

Lemma reorder_updates_owned_pairs_only_witness :
  reorder_images "tok-alice"
      (JObj [("order", JArr [JObj [("id", JNum 5); ("order", JNum 11)];
                             JObj [("id", JStr "6"); ("order", JNum 9)]])])
      numbered_store
    = (mkStore [alice; bob] [set_display_order 11 img5; img6],
       (MessageBody "Reordered", 200)).
Proof.
  destruct (reorder_updates_owned_pairs_only numbered_store "tok-alice" "u-alice"
              [("order", JArr [JObj [("id", JNum 5); ("order", JNum 11)];
                               JObj [("id", JStr "6"); ("order", JNum 9)]])]
              [JObj [("id", JNum 5); ("order", JNum 11)];
               JObj [("id", JStr "6"); ("order", JNum 9)]]
              [("5", 11); ("6", 9)])
    as (_ & Hrun & _).
  - reflexivity.
  - reflexivity.
  - pairs_of_literals.
  - exact Hrun.
Defined.

(** C10. For a resolved user, [reorder_images] on a body without the key
    [order], or with an empty order list, answers 200 "Reordered" and leaves
    the store as it found it, so no image record of any user changes; the
    answer is the one a reorder of a non-empty list of pairs gets. *)
Theorem reorder_of_nothing_changes_nothing st g U fields :
  resolve st g = Some U ->
  dict_lookup "order" fields = None \/
  dict_lookup "order" fields = Some (JArr []) ->
  reorder_images g (JObj fields) st = (st, (MessageBody "Reordered", 200)) /\
  (forall st2 g2 U2 fields2 item items pairs,
     resolve st2 g2 = Some U2 ->
     dict_lookup "order" fields2 = Some (JArr (item :: items)) ->
     Forall2 item_of_pair (item :: items) pairs ->
     snd (reorder_images g2 (JObj fields2) st2)
       = snd (reorder_images g (JObj fields) st)).
Proof.
  intros HU Hnone.
  assert (reorder_images g (JObj fields) st = (st, (MessageBody "Reordered", 200)))
    as Hrun.
  { rewrite (reorder_images_pairs st g U fields [] []); [| exact HU | | constructor].
    - simpl. rewrite set_images_same. reflexivity.
    - destruct Hnone as [-> | ->]; reflexivity. }
  split; [exact Hrun|].
  intros st2 g2 U2 fields2 item items pairs HU2 Hlist Hpairs.
  rewrite Hrun.
  rewrite (reorder_images_pairs st2 g2 U2 fields2 (item :: items) pairs);
    [reflexivity | exact HU2 | rewrite Hlist; reflexivity | exact Hpairs].
Qed.

Lemma reorder_of_nothing_changes_nothing_witness :
  reorder_images "tok-alice" (JObj []) shuffled_store
    = (shuffled_store, (MessageBody "Reordered", 200)) /\
  reorder_images "tok-alice" (JObj [("order", JArr [])]) shuffled_store
    = (shuffled_store, (MessageBody "Reordered", 200)).
Proof.
  split.
  - apply (reorder_of_nothing_changes_nothing shuffled_store "tok-alice" "u-alice" []);
      [reflexivity | left; reflexivity].
  - apply (reorder_of_nothing_changes_nothing shuffled_store "tok-alice" "u-alice"
             [("order", JArr [])]);
      [reflexivity | right; reflexivity].
Defined.

(** ** The decorated routes *)

(** Behind [require_guest_id], a request without the header, or with an
    empty one, is answered 401 and never reaches the handler. *)
Lemma require_guest_id_missing f hdr st :
  hdr = None \/ hdr = Some "" ->
  require_guest_id f hdr st = (st, MissingAuth "Guest ID required").
Proof. intros [-> | ->]; reflexivity. Qed.

(** With a non-empty header the route is the handler on that token. *)
Lemma require_guest_id_present f g :
  g <> "" -> require_guest_id f (Some g) = f g.
Proof.
  intros Hne. unfold require_guest_id.
  destruct (String.eqb g "") eqn:E; [|reflexivity].
  apply String.eqb_eq in E. contradiction.
Qed.

(** ** The scenario of the specification

    Two guests; the first owns [img0] at order 0 and [img1] at order 1.  The
    second cannot update [img0]; the first reorders [img0] to 5, and the
    list that follows shows [img1] at 1 before [img0] at 5. *)
Example scenario_update_denied_then_reorder :
  snd (route_update_image "2024-12-02T09:00:00" (Some "tok-bob") "img0"
         (JObj [("title", JStr "mine now")]) sample_store)
    = NotFound "Image not found or access denied" /\
  let st := fst (route_reorder_images (Some "tok-alice")
                   (JObj [("order", JArr [JObj [("id", JStr "img0");
                                                ("order", JNum 5)]])])
                   sample_store) in
  snd (route_get_images (Some "tok-alice") st)
    = (ImagesBody [img1; set_display_order 5 img0], 200).
Proof. split; reflexivity. Qed.

(** * Further properties of the handlers *)

Open Scope list_scope.

(** ** What a payload can write *)

Lemma column_write_id col v w r :
  column_write col v = Some w -> img_id (w r) = img_id r.
Proof.
  unfold column_write, text_column, int_column.
  repeat (destruct (String.eqb col _); [destruct v; intros [= <-]; reflexivity|]).
  discriminate.
Qed.

Lemma column_write_identity col v w r :
  column_write col v = Some w ->
  col <> "user_id" -> col <> "created_at" ->
  same_identity r (w r).
Proof.
  unfold column_write, text_column, int_column, same_identity.
  intros Hw Hu Hc.
  destruct (String.eqb col "user_id") eqn:E1;
    [apply String.eqb_eq in E1; contradiction|].
  destruct (String.eqb col "title");
    [destruct v; try discriminate; injection Hw as <-; auto|].
  destruct (String.eqb col "image_url");
    [destruct v; try discriminate; injection Hw as <-; auto|].
  destruct (String.eqb col "description");
    [destruct v; try discriminate; injection Hw as <-; auto|].
  destruct (String.eqb col "display_order");
    [destruct v; try discriminate; injection Hw as <-; auto|].
  destruct (String.eqb col "created_at") eqn:E2;
    [apply String.eqb_eq in E2; contradiction|].
  destruct (String.eqb col "updated_at");
    [destruct v; try discriminate; injection Hw as <-; auto|].
  discriminate.
Qed.

Lemma payload_write_cons_inv col v rest w :
  payload_write ((col, v) :: rest) = Some w ->
  exists w1 w2,
    column_write col v = Some w1 /\ payload_write rest = Some w2 /\
    w = fun r => w2 (w1 r).
Proof.
  simpl. destruct (column_write col v) as [w1|]; [|discriminate].
  destruct (payload_write rest) as [w2|]; [|discriminate].
  intros [= <-]. eauto.
Qed.

Lemma same_identity_refl r : same_identity r r.
Proof. unfold same_identity. auto. Qed.

Lemma same_identity_trans a b c :
  same_identity a b -> same_identity b c -> same_identity a c.
Proof. unfold same_identity. intros (-> & -> & ->) (-> & -> & ->). auto. Qed.

Lemma payload_write_identity payload :
  Forall patch_key payload ->
  forall w r, payload_write payload = Some w -> same_identity r (w r).
Proof.
  induction 1 as [|[col v] rest [Hu Hc] _ IH]; intros w r Hw.
  - injection Hw as <-. apply same_identity_refl.
  - apply payload_write_cons_inv in Hw as (w1 & w2 & H1 & H2 & ->).
    eapply same_identity_trans.
    + eapply column_write_identity; eauto.
    + apply IH. exact H2.
Qed.

Lemma dict_set_patch_key k v d :
  k <> "user_id" -> k <> "created_at" ->
  Forall patch_key d -> Forall patch_key (dict_set k v d).
Proof.
  intros Hu Hc. induction 1 as [|[k' v'] rest Hk Hrest IH]; simpl.
  - repeat constructor; assumption.
  - destruct (String.eqb k k'); constructor; try assumption; exact Hk.
Qed.

Lemma copy_if_present_patch_key data k d st :
  k <> "user_id" -> k <> "created_at" -> Forall patch_key d ->
  match copy_if_present data k d st with
  | (st', Val d') => st' = st /\ Forall patch_key d'
  | (st', Raise _) => st' = st
  end.
Proof.
  intros Hu Hc Hd. unfold copy_if_present, mbind, M_bind, lift, mret, M_ret.
  destruct (py_in k data) as [[]|]; simpl; auto.
  destruct (py_getitem data k); simpl; auto.
  split; [reflexivity|]. apply dict_set_patch_key; assumption.
Qed.

Lemma Forall2_diag_refl {A} (R : A -> A -> Prop) (l : list A) :
  (forall x, R x x) -> Forall2 R l l.
Proof. intros HR. apply Forall_Forall2_diag, Forall_forall. auto. Qed.

Lemma Forall2_map_self {A} (R : A -> A -> Prop) (f : A -> A) (l : list A) :
  (forall x, R x (f x)) -> Forall2 R l (map f l).
Proof.
  intros HR. apply Forall2_fmap_r, Forall_Forall2_diag, Forall_forall. auto.
Qed.

(** ** Update: what no body can do *)

Lemma update_image_frame st now g iid data :
  users (update_image now g iid data st).1 = users st /\
  Forall2 (fun old new => same_identity old new /\ (img_id old <> iid -> new = old))
          (images st) (images (update_image now g iid data st).1).
Proof.
  assert (Forall2 (fun old new => same_identity old new /\ (img_id old <> iid -> new = old))
            (images st) (images st)) as Hrefl.
  { apply Forall2_diag_refl. intros x. split; [apply same_identity_refl | reflexivity]. }
  unfold update_image. run.
  destruct (map u_id _) as [|U ?]; simpl; [auto|].
  destruct (filter _ (images st)) as [|? ?]; simpl; [auto|].
  pose proof (copy_if_present_patch_key data "title" [("updated_at", JStr now)] st)
    as H1.
  destruct (copy_if_present data "title" _ st) as [st1 [d1|e1]];
    [destruct H1 as [-> H1]; [discriminate | discriminate | |]
    | rewrite H1 by (discriminate || (repeat constructor; simpl; discriminate));
      simpl; auto].
  { repeat constructor; simpl; discriminate. }
  pose proof (copy_if_present_patch_key data "description" d1 st) as H2.
  destruct (copy_if_present data "description" d1 st) as [st2 [d2|e2]];
    [destruct H2 as [-> H2]; [discriminate | discriminate | exact H1 |]
    | rewrite H2 by (discriminate || exact H1); simpl; auto].
  pose proof (copy_if_present_patch_key data "image_url" d2 st) as H3.
  destruct (copy_if_present data "image_url" d2 st) as [st3 [d3|e3]];
    [destruct H3 as [-> H3]; [discriminate | discriminate | exact H2 |]
    | rewrite H3 by (discriminate || exact H2); simpl; auto].
  pose proof (copy_if_present_patch_key data "display_order" d3 st) as H4.
  destruct (copy_if_present data "display_order" d3 st) as [st4 [d4|e4]];
    [destruct H4 as [-> H4]; [discriminate | discriminate | exact H3 |]
    | rewrite H4 by (discriminate || exact H3); simpl; auto].
  unfold images_update.
  destruct (payload_write d4) as [w|] eqn:Hw; simpl; [|auto].
  assert (Forall2 (fun old new => same_identity old new /\ (img_id old <> iid -> new = old))
            (images st)
            (map (fun r => if decide (img_id r = iid) then w r else r) (images st)))
    as Hmap.
  { apply Forall2_map_self. intros x.
    destruct (decide (img_id x = iid)) as [Hid | Hid].
    - split; [|contradiction]. eapply payload_write_identity; eauto.
    - split; [apply same_identity_refl | reflexivity]. }
  destruct (map w _); simpl; auto.
Qed.

(** X1. Whatever the token, the image id and the body (an object, an
    array, null, anything), and whether it answers 200, 404 or 500,
    [update_image] leaves the table [users] as it was, keeps the number and
    the order of the image rows, keeps the id, the owner and [created_at] of
    every row, and leaves untouched every row whose id is not the one of the
    request. *)
Theorem update_any_body_keeps_identity st now g iid data :
  users (update_image now g iid data st).1 = users st /\
  Forall2 (fun old new => same_identity old new /\ (img_id old <> iid -> new = old))
          (images st) (images (update_image now g iid data st).1).
Proof. apply update_image_frame. Qed.

(** ** Reorder: any body, failures, repetition *)

Lemma reorder_item_fails U item e st :
  item_fails item e -> reorder_item U item st = (st, Raise e).
Proof.
  unfold reorder_item. run.
  intros [Ho | (o & Ho & Hi)].
  - rewrite Ho. reflexivity.
  - rewrite Ho, Hi. reflexivity.
Qed.

(** One run of the loop body applies a pair or leaves the store as it is. *)
Lemma reorder_item_effect U item st :
  (exists p, reorder_item U item st
             = (set_images (apply_pair U (images st) p) st, Val tt)) \/
  (exists e, reorder_item U item st = (st, Raise e)).
Proof.
  unfold reorder_item, images_update_by_id_user, images_update. run.
  destruct (py_getitem item "order") as [o|e]; simpl; [|right; eauto].
  destruct (py_getitem item "id") as [i|e]; simpl; [|right; eauto].
  destruct o as [| |n| | |]; simpl; try (right; eauto; fail).
  left. exists (py_str i, n). reflexivity.
Qed.

Lemma reorder_loop_stops U good pairs bad rest e :
  Forall2 item_of_pair good pairs ->
  item_fails bad e ->
  forall st,
    reorder_loop U (good ++ bad :: rest) st
      = (set_images (fold_left (apply_pair U) pairs (images st)) st, Raise e).
Proof.
  intros Hgood Hbad. induction Hgood as [|item p good pairs Hp _ IH]; intros st; simpl.
  - unfold mbind, M_bind. rewrite (reorder_item_fails U bad e st Hbad).
    rewrite set_images_same. reflexivity.
  - unfold mbind, M_bind. rewrite (reorder_item_pair U item p st Hp).
    rewrite IH. reflexivity.
Qed.

Lemma reorder_loop_effect U items :
  forall st, exists pairs,
    (reorder_loop U items st).1
      = set_images (fold_left (apply_pair U) pairs (images st)) st.
Proof.
  induction items as [|item items IH]; intros st; simpl.
  - exists []. simpl. rewrite set_images_same. reflexivity.
  - unfold mbind, M_bind.
    destruct (reorder_item_effect U item st) as [[p ->] | [e ->]].
    + destruct (IH (set_images (apply_pair U (images st) p) st)) as [pairs Hpairs].
      exists (p :: pairs). simpl.
      destruct (reorder_loop U items _) as [st' [[]|e]]; simpl in *; exact Hpairs.
    + exists []. simpl. rewrite set_images_same. reflexivity.
Qed.

Lemma same_but_order_refl r : same_but_order r r.
Proof. destruct r; reflexivity. Qed.

Lemma reordered_row_frame U pairs r :
  same_but_order r (reordered_row U pairs r) /\
  (img_user_id r <> U -> reordered_row U pairs r = r).
Proof.
  unfold reordered_row.
  destruct (decide (img_user_id r = U)) as [Hu|Hu].
  - split; [|contradiction].
    destruct (last_order_for (img_id r) pairs);
      [destruct r; reflexivity | apply same_but_order_refl].
  - split; [apply same_but_order_refl | reflexivity].
Qed.

Lemma reorder_images_frame st g data :
  users (reorder_images g data st).1 = users st /\
  Forall2 (fun old new =>
             same_but_order old new /\
             (resolve st g <> Some (img_user_id old) -> new = old))
          (images st) (images (reorder_images g data st).1).
Proof.
  assert (Forall2 (fun old new =>
                     same_but_order old new /\
                     (resolve st g <> Some (img_user_id old) -> new = old))
            (images st) (images st)) as Hrefl.
  { apply Forall2_diag_refl. intros x. split; [apply same_but_order_refl | reflexivity]. }
  unfold reorder_images. run.
  destruct (py_get_default data "order" (JArr [])) as [order_list|e]; simpl; [|auto].
  destruct (map u_id _) as [|U ?] eqn:HU; simpl; [auto|].
  assert (resolve st g = Some U) as HUres by (unfold resolve; rewrite HU; reflexivity).
  destruct (py_iter order_list) as [items|e]; simpl; [|auto].
  destruct (reorder_loop_effect U items st) as [pairs Hpairs].
  destruct (reorder_loop U items st) as [st' [[]|e]]; simpl in *; subst st'; simpl;
    (split; [reflexivity|]);
    rewrite fold_apply_pair; apply Forall2_map_self; intros x;
    destruct (reordered_row_frame U pairs x) as [Hsame Hother];
    (split; [exact Hsame|]); intros Hne; apply Hother; congruence.
Qed.

(** X2. Whatever the token and the body, and whether it answers 200, 404
    or 500, [reorder_images] leaves the table [users] as it was, keeps the
    number and the order of the image rows, changes nothing but
    [display_order] in any row, and changes no row at all that does not
    belong to the user the token resolves to. *)
Theorem reorder_any_body_touches_only_own_orders st g data :
  users (reorder_images g data st).1 = users st /\
  Forall2 (fun old new =>
             same_but_order old new /\
             (resolve st g <> Some (img_user_id old) -> new = old))
          (images st) (images (reorder_images g data st).1).
Proof. apply reorder_images_frame. Qed.

(** X3. A reorder that fails midway keeps what it has done: when the
    order list is a run of pairs followed by an item on which the loop body
    raises before it sends an update (the item is not an object, or it has
    no [order], or no [id]), [reorder_images] answers 500 with that
    exception, the pairs before the item are applied and stay applied, and
    the items after it are never looked at. *)
Theorem reorder_failure_keeps_earlier_updates st g U fields good pairs bad rest e :
  resolve st g = Some U ->
  dict_lookup "order" fields = Some (JArr (good ++ bad :: rest)) ->
  Forall2 item_of_pair good pairs ->
  item_fails bad e ->
  reorder_images g (JObj fields) st
    = (set_images (fold_left (apply_pair U) pairs (images st)) st, StoreError e).
Proof.
  intros [more HU]%resolve_some Hlist Hgood Hbad.
  unfold reorder_images. run. rewrite HU, Hlist. simpl.
  unfold mbind, M_bind.
  rewrite (reorder_loop_stops U good pairs bad rest e Hgood Hbad). reflexivity.
Qed.

Lemma reorder_failure_keeps_earlier_updates_witness :
  reorder_images "tok-alice"
      (JObj [("order", JArr [JObj [("id", JNum 5); ("order", JNum 11)];
                             JObj [("id", JStr "5")];
                             JObj [("id", JStr "5"); ("order", JNum 0)]])])
      numbered_store
    = (mkStore [alice; bob] [set_display_order 11 img5; img6],
       StoreError (KeyError "order")).
Proof.
  apply (reorder_failure_keeps_earlier_updates numbered_store "tok-alice" "u-alice"
           [("order", JArr [JObj [("id", JNum 5); ("order", JNum 11)];
                            JObj [("id", JStr "5")];
                            JObj [("id", JStr "5"); ("order", JNum 0)]])]
           [JObj [("id", JNum 5); ("order", JNum 11)]]
           [("5", 11)]
           (JObj [("id", JStr "5")])
           [JObj [("id", JStr "5"); ("order", JNum 0)]]
           (KeyError "order")).
  - reflexivity.
  - reflexivity.
  - pairs_of_literals.
  - left. reflexivity.
Defined.

Lemma reordered_row_idem U pairs r :
  reordered_row U pairs (reordered_row U pairs r) = reordered_row U pairs r.
Proof.
  unfold reordered_row.
  destruct (decide (img_user_id r = U)) as [Hu|Hu].
  - destruct (last_order_for (img_id r) pairs) as [n|] eqn:Hn; simpl.
    + destruct (decide (img_user_id r = U)); [|contradiction].
      rewrite Hn. reflexivity.
    + destruct (decide (img_user_id r = U)); [|contradiction].
      rewrite Hn. reflexivity.
  - destruct (decide (img_user_id r = U)); [contradiction | reflexivity].
Qed.

(** X4. Reordering is idempotent: sending the same list of pairs a second
    time answers 200 again and leaves the store exactly as the first
    request left it. *)
Theorem reorder_twice_is_reorder_once st g U fields items pairs :
  resolve st g = Some U ->
  dict_lookup "order" fields = Some (JArr items) ->
  Forall2 item_of_pair items pairs ->
  reorder_images g (JObj fields) (reorder_images g (JObj fields) st).1
    = ((reorder_images g (JObj fields) st).1, (MessageBody "Reordered", 200)).
Proof.
  intros HU Hlist Hpairs.
  rewrite (reorder_images_pairs st g U fields items pairs HU);
    [| rewrite Hlist; reflexivity | exact Hpairs].
  simpl.
  rewrite (reorder_images_pairs _ g U fields items pairs);
    [| exact HU | rewrite Hlist; reflexivity | exact Hpairs].
  simpl. unfold set_images. simpl. rewrite !fold_apply_pair, map_map.
  do 2 f_equal. apply map_ext. intros r. apply reordered_row_idem.
Qed.

Lemma reorder_twice_is_reorder_once_witness :
  let body := JObj [("order", JArr [JObj [("id", JStr "img0"); ("order", JNum 5)];
                                    JObj [("id", JStr "img3"); ("order", JNum 9)]])] in
  reorder_images "tok-alice" body (reorder_images "tok-alice" body shuffled_store).1
    = ((reorder_images "tok-alice" body shuffled_store).1,
       (MessageBody "Reordered", 200)).
Proof.
  apply (reorder_twice_is_reorder_once shuffled_store "tok-alice" "u-alice" _
           [JObj [("id", JStr "img0"); ("order", JNum 5)];
            JObj [("id", JStr "img3"); ("order", JNum 9)]]
           [("img0", 5); ("img3", 9)]).
  - reflexivity.
  - reflexivity.
  - pairs_of_literals.
Defined.

(** ** Create: every input *)

Lemma create_image_effect st g data tc tu nid :
  ((create_image tc tu nid g data st).1 = st /\
   snd (snd (create_image tc tu nid g data st)) <> 201) \/
  (exists U row,
     resolve st g = Some U /\
     (nid ∉ map img_id (images st)) /\
     create_image tc tu nid g data st
       = (set_images (images st ++ [row]) st, (ImageBody row, 201)) /\
     img_id row = nid /\
     img_user_id row = U /\
     img_display_order row = next_order st U /\
     img_created_at row = tc /\
     img_updated_at row = tu).
Proof.
  unfold create_image. run. unfold py_get, py_get_default.
  destruct data as [| | | | |fields]; simpl; try (left; split; [reflexivity | discriminate]).
  destruct (truthy _); simpl; [|left; split; [reflexivity | discriminate]].
  destruct (map u_id _) as [|U more] eqn:HU; simpl;
    [left; split; [reflexivity | discriminate]|].
  assert (resolve st g = Some U) as HUres by (unfold resolve; rewrite HU; reflexivity).
  unfold images_insert.
  set (title := default (JStr "Untitled") (dict_lookup "title" fields)).
  set (url := default JNull (dict_lookup "image_url" fields)).
  set (description := default (JStr "") (dict_lookup "description" fields)).
  destruct title as [| | |t| |]; simpl; try (left; split; [reflexivity | discriminate]).
  destruct url as [| | |u| |]; simpl; try (left; split; [reflexivity | discriminate]).
  destruct description as [| | |d| |]; simpl;
    try (left; split; [reflexivity | discriminate]).
  destruct (decide (nid ∈ map img_id (images st))) as [Hin|Hfresh]; simpl;
    [left; split; [reflexivity | discriminate]|].
  right. eexists U, _. split; [exact HUres|]. split; [exact Hfresh|].
  split; [reflexivity|]. simpl. unfold next_order, owned_images. auto.
Qed.

(** X5. Whatever the token and the body, [create_image] does one of two
    things.  Either it leaves the store exactly as it was and does not
    answer 201; or it answers 201 with a row that it appends to the table,
    every earlier row untouched, and that row carries the generated id, which
    was free, belongs to the user the token resolves to, stands at that
    user's next order and bears the two readings of the clock. *)
Theorem create_inserts_one_row_or_nothing st g data tc tu nid :
  ((create_image tc tu nid g data st).1 = st /\
   snd (snd (create_image tc tu nid g data st)) <> 201) \/
  (exists U row,
     resolve st g = Some U /\
     (nid ∉ map img_id (images st)) /\
     create_image tc tu nid g data st
       = (set_images (images st ++ [row]) st, (ImageBody row, 201)) /\
     img_id row = nid /\
     img_user_id row = U /\
     img_display_order row = next_order st U /\
     img_created_at row = tc /\
     img_updated_at row = tu).
Proof. apply create_image_effect. Qed.

(** ** Delete: every input *)

Lemma filter_all {A} (P : A -> Prop) `{forall x, Decision (P x)} (l : list A) :
  (forall x, x ∈ l -> P x) -> filter P l = l.
Proof.
  induction l as [|a l IH]; intros Hall; [reflexivity|].
  rewrite filter_cons_True by (apply Hall; left).
  f_equal. apply IH. intros x Hx. apply Hall. right. exact Hx.
Qed.

Lemma filter_out_unique_id (l1 l2 : list image) (r : image) :
  NoDup (map img_id (l1 ++ r :: l2)) ->
  filter (fun x => img_id x <> img_id r) (l1 ++ r :: l2) = l1 ++ l2.
Proof.
  intros Hnd. rewrite fmap_app in Hnd. simpl in Hnd.
  apply NoDup_app in Hnd as (_ & Hl1 & Hnd).
  apply NoDup_cons in Hnd as [Hl2 _].
  rewrite filter_app, filter_cons_False by (intros Hne; apply Hne; reflexivity).
  f_equal; apply filter_all; intros x Hx Hid.
  - apply (Hl1 (img_id x)); [apply list_elem_of_fmap; eauto|].
    rewrite Hid. left.
  - apply Hl2. rewrite <- Hid. apply list_elem_of_fmap. eauto.
Qed.

Lemma delete_image_effect st g iid :
  ((delete_image g iid st).1 = st /\ snd (snd (delete_image g iid st)) <> 200) \/
  (exists U r,
     resolve st g = Some U /\ r ∈ images st /\ img_id r = iid /\ img_user_id r = U /\
     delete_image g iid st
       = (set_images (filter (fun x => img_id x <> iid) (images st)) st,
          (MessageBody "Image deleted", 200))).
Proof.
  unfold delete_image. run.
  destruct (map u_id _) as [|U more] eqn:HU; simpl;
    [left; split; [reflexivity | discriminate]|].
  assert (resolve st g = Some U) as HUres by (unfold resolve; rewrite HU; reflexivity).
  destruct (filter _ (images st)) as [|r rs] eqn:Hf; simpl;
    [left; split; [reflexivity | discriminate]|].
  assert (r ∈ filter (fun r => img_id r = iid /\ img_user_id r = U) (images st)) as Hr
    by (rewrite Hf; left).
  apply list_elem_of_filter in Hr as [[Hid Hown] Hr].
  right. exists U, r. auto.
Qed.

(** X6. Whatever the token and the id, with image ids unique in the table,
    [delete_image] does one of two things.  Either it leaves the store as it
    was and does not answer 200; or it answers 200, the token resolves to the
    owner of the row with that id, and the table loses that row and no
    other, the rows before and after it staying in place. *)
Theorem delete_removes_one_row_of_the_caller st g iid :
  NoDup (map img_id (images st)) ->
  ((delete_image g iid st).1 = st /\ snd (snd (delete_image g iid st)) <> 200) \/
  (exists U l1 r l2,
     resolve st g = Some U /\
     images st = l1 ++ r :: l2 /\
     img_id r = iid /\ img_user_id r = U /\
     delete_image g iid st
       = (set_images (l1 ++ l2) st, (MessageBody "Image deleted", 200))).
Proof.
  intros Hnd.
  destruct (delete_image_effect st g iid)
    as [Hsame | (U & r & HU & Hr & Hid & Hown & Hrun)]; [left; exact Hsame|].
  right. apply list_elem_of_split in Hr as (l1 & l2 & Hsplit).
  exists U, l1, r, l2. repeat split; try assumption.
  rewrite Hrun, Hsplit, <- Hid. rewrite filter_out_unique_id; [reflexivity|].
  rewrite <- Hsplit. exact Hnd.
Qed.

Lemma delete_removes_one_row_of_the_caller_witness :
  ((delete_image "tok-alice" "img0" shuffled_store).1 = shuffled_store /\
   snd (snd (delete_image "tok-alice" "img0" shuffled_store)) <> 200) \/
  (exists U l1 r l2,
     resolve shuffled_store "tok-alice" = Some U /\
     images shuffled_store = l1 ++ r :: l2 /\
     img_id r = "img0" /\ img_user_id r = U /\
     delete_image "tok-alice" "img0" shuffled_store
       = (set_images (l1 ++ l2) shuffled_store, (MessageBody "Image deleted", 200))).
Proof.
  apply (delete_removes_one_row_of_the_caller shuffled_store "tok-alice" "img0").
  compute_done.
Defined.

(** ** The tables across requests *)

Lemma get_images_read_only st g : (get_images g st).1 = st.
Proof.
  unfold get_images. run. destruct (map u_id _); reflexivity.
Qed.

(** X7. No image route writes to the table [users]: after [get_images],
    [create_image], [update_image], [delete_image] or [reorder_images], on any
    token and any body, and whatever the answer, the user rows are the ones
    that were there; [get_images] changes nothing at all. *)
Theorem image_routes_never_touch_users st g :
  (get_images g st).1 = st /\
  (forall tc tu nid data, users (create_image tc tu nid g data st).1 = users st) /\
  (forall now iid data, users (update_image now g iid data st).1 = users st) /\
  (forall iid, users (delete_image g iid st).1 = users st) /\
  (forall data, users (reorder_images g data st).1 = users st).
Proof.
  split; [apply get_images_read_only|]. repeat split; intros.
  - destruct (create_image_effect st g data tc tu nid)
      as [[-> _] | (U & row & _ & _ & -> & _)]; reflexivity.
  - apply update_image_frame.
  - destruct (delete_image_effect st g iid)
      as [[-> _] | (U & r & _ & _ & _ & _ & ->)]; reflexivity.
  - apply reorder_images_frame.
Qed.

Lemma same_identity_columns (l l' : list image) :
  Forall2 same_identity l l' ->
  map img_id l' = map img_id l /\ map img_user_id l' = map img_user_id l.
Proof.
  induction 1 as [|a b l l' (Hid & Hu & _) _ [IH1 IH2]]; simpl; [auto|].
  rewrite Hid, Hu, IH1, IH2. auto.
Qed.

Lemma same_but_order_identity old new :
  same_but_order old new -> same_identity old new.
Proof.
  unfold same_but_order, same_identity. intros H. rewrite H. simpl. auto.
Qed.

Lemma store_ok_columns st st' :
  store_ok st ->
  map img_id (images st') = map img_id (images st) ->
  map img_user_id (images st') = map img_user_id (images st) ->
  (forall x, x ∈ map u_id (users st) -> x ∈ map u_id (users st')) ->
  store_ok st'.
Proof.
  intros [Hnd Href] Hids Hus Husers. split; [rewrite Hids; exact Hnd|].
  intros r Hr. apply Husers.
  assert (img_user_id r ∈ map img_user_id (images st')) as Hin
    by (apply list_elem_of_fmap; eauto).
  rewrite Hus in Hin. apply list_elem_of_fmap in Hin as (r0 & -> & Hr0).
  apply Href. exact Hr0.
Qed.

Lemma resolve_is_a_user st g U :
  resolve st g = Some U -> U ∈ map u_id (users st).
Proof.
  unfold resolve. intros HU%head_Some_elem_of.
  apply list_elem_of_fmap in HU as (u & -> & Hu).
  apply list_elem_of_filter in Hu as [_ Hu].
  apply list_elem_of_fmap. eauto.
Qed.

Lemma touch_keeps_ids now uid (us : list user) :
  map u_id (map (fun u => if decide (u_id u = uid)
                          then set_last_accessed now u else u) us)
  = map u_id us.
Proof.
  rewrite map_map. apply map_ext. intros u. destruct (decide _); reflexivity.
Qed.

Lemma verify_guest_effect st g now :
  images (verify_guest now g st).1 = images st /\
  ((verify_guest now g st).1 = st \/
   exists uid,
     users (verify_guest now g st).1
       = map (fun u => if decide (u_id u = uid)
                       then set_last_accessed now u else u) (users st)).
Proof.
  unfold verify_guest. run.
  destruct (filter _ (users st)) as [|u rest]; simpl; [auto|].
  split; [reflexivity|]. right. exists (u_id u). reflexivity.
Qed.

Lemma create_guest_effect st g tc ta nid :
  create_guest g tc ta nid st
    = (if decide (nid ∈ map u_id (users st))
       then (st, (XExceptionBody (DbException APIError), 500))
       else (set_users (users st ++ [mkUser nid g tc ta]) st,
             (GuestBody g (Some nid), 201))).
Proof.
  unfold create_guest, users_insert. destruct (decide _); reflexivity.
Qed.

(** X8. The integrity of the tables is an invariant of every route that
    writes or reads them: if image ids are unique and every image belongs to
    a user of the table, the same holds after [get_images], [create_image],
    [update_image], [delete_image], [reorder_images], [verify_guest] and
    [create_guest], on any token and any body, whatever the answer. *)
Theorem store_ok_is_kept_by_every_route st g :
  store_ok st ->
  store_ok (get_images g st).1 /\
  (forall tc tu nid data, store_ok (create_image tc tu nid g data st).1) /\
  (forall now iid data, store_ok (update_image now g iid data st).1) /\
  (forall iid, store_ok (delete_image g iid st).1) /\
  (forall data, store_ok (reorder_images g data st).1) /\
  (forall now, store_ok (verify_guest now g st).1) /\
  (forall tc ta nid, store_ok (create_guest g tc ta nid st).1).
Proof.
  intros Hok. split; [rewrite get_images_read_only; exact Hok|].
  refine (conj _ (conj _ (conj _ (conj _ (conj _ _))))); intros.
  - destruct (create_image_effect st g data tc tu nid)
      as [[-> _] | (U & row & HU & Hfresh & -> & Hid & Hown & _)];
      [exact Hok | simpl].
    destruct Hok as [Hnd Href]. split; simpl.
    + rewrite fmap_app. simpl. apply NoDup_app. split; [exact Hnd|].
      split; [|apply NoDup_singleton].
      intros x Hx Hx'. apply list_elem_of_singleton in Hx'. subst x.
      rewrite Hid in Hx. contradiction.
    + intros r Hr. apply elem_of_app in Hr as [Hr | Hr]; [apply Href; exact Hr|].
      apply list_elem_of_singleton in Hr. subst r. rewrite Hown.
      apply (resolve_is_a_user st g). exact HU.
  - destruct (update_image_frame st now g iid data) as [Hus Himgs].
    assert (Forall2 same_identity (images st) (images (update_image now g iid data st).1))
      as Hsame by (eapply Forall2_impl; [exact Himgs | intros ? ? [? _]; assumption]).
    apply same_identity_columns in Hsame as [Hids Howners].
    apply (store_ok_columns st); try assumption. rewrite Hus. auto.
  - destruct (delete_image_effect st g iid)
      as [[-> _] | (U & r & _ & _ & _ & _ & ->)]; [exact Hok | simpl].
    destruct Hok as [Hnd Href]. split; simpl.
    + eapply sublist_NoDup; [exact Hnd|]. apply fmap_sublist, sublist_filter.
    + intros x Hx. apply list_elem_of_filter in Hx as [_ Hx]. apply Href. exact Hx.
  - destruct (reorder_images_frame st g data) as [Hus Himgs].
    assert (Forall2 same_identity (images st) (images (reorder_images g data st).1))
      as Hsame.
    { eapply Forall2_impl; [exact Himgs|].
      intros ? ? [? _]. apply same_but_order_identity. assumption. }
    apply same_identity_columns in Hsame as [Hids Howners].
    apply (store_ok_columns st); try assumption. rewrite Hus. auto.
  - destruct (verify_guest_effect st g now) as [Himgs [-> | [uid Hus]]]; [exact Hok|].
    apply (store_ok_columns st); try (rewrite Himgs; reflexivity); [exact Hok|].
    rewrite Hus, touch_keeps_ids. auto.
  - rewrite create_guest_effect. destruct (decide _); [exact Hok | simpl].
    apply (store_ok_columns st); try reflexivity; [exact Hok|].
    simpl. intros x Hx. rewrite fmap_app. apply elem_of_app. left. exact Hx.
Qed.

Lemma store_ok_is_kept_by_every_route_witness :
  store_ok (create_image "2024-12-02T09:00:00" "2024-12-02T09:00:01" "img4"
              "tok-alice" (JObj [("image_url", JStr "http://x/4.png")])
              shuffled_store).1.
Proof.
  assert (store_ok shuffled_store) as Hok.
  { split; [compute_done|].
    apply (Forall_forall (fun r => img_user_id r ∈ map u_id (users shuffled_store))).
    compute_done. }
  destruct (store_ok_is_kept_by_every_route shuffled_store "tok-alice" Hok)
    as (_ & Hcreate & _).
  apply Hcreate.
Defined.

(** ** Guests *)

Lemma resolve_app_fresh st g row :
  (forall u, u ∈ users st -> u_guest_id u <> g) ->
  u_guest_id row = g ->
  resolve (set_users (users st ++ [row]) st) g = Some (u_id row).
Proof.
  intros Hfresh Hg. unfold resolve. simpl.
  rewrite filter_app.
  rewrite (proj2 (filter_nil_iff (fun u => u_guest_id u = g) (users st)) Hfresh).
  simpl. rewrite filter_cons_True by exact Hg. reflexivity.
Qed.

Lemma resolve_app_other st g' row :
  u_guest_id row <> g' ->
  resolve (set_users (users st ++ [row]) st) g' = resolve st g'.
Proof.
  intros Hne. unfold resolve. simpl.
  rewrite filter_app, filter_cons_False by exact Hne.
  rewrite filter_nil, app_nil_r. reflexivity.
Qed.

(** X9. Issuing a guest and coming back with the token.  When the
    generated user id is free and the generated token is not yet
    registered, [create_guest] answers 201 with the token and the id and
    appends one user row, the images untouched; from then on the token
    resolves to that id, every other token resolves as before, and
    [verify_guest] on the token answers 200 with the id, the token and the
    creation time of the row, changing only the [last_accessed] of that
    row. *)
Theorem create_guest_then_verify st g tc ta nid now :
  nid ∉ map u_id (users st) ->
  (forall u, u ∈ users st -> u_guest_id u <> g) ->
  create_guest g tc ta nid st
    = (set_users (users st ++ [mkUser nid g tc ta]) st,
       (GuestBody g (Some nid), 201)) /\
  resolve (create_guest g tc ta nid st).1 g = Some nid /\
  (forall g', g' <> g ->
     resolve (create_guest g tc ta nid st).1 g' = resolve st g') /\
  verify_guest now g (create_guest g tc ta nid st).1
    = (set_users (users st ++ [mkUser nid g tc now]) st,
       (UserBody nid g tc, 200)).
Proof.
  intros Hid Htoken. rewrite create_guest_effect.
  destruct (decide (nid ∈ map u_id (users st))); [contradiction|]. simpl.
  split; [reflexivity|].
  split; [apply (resolve_app_fresh st g (mkUser nid g tc ta)); auto|].
  split.
  { intros g' Hne. apply resolve_app_other. simpl. congruence. }
  unfold verify_guest. run.
  rewrite filter_app.
  rewrite (proj2 (filter_nil_iff (fun u => u_guest_id u = g) (users st)) Htoken).
  simpl. rewrite filter_cons_True by reflexivity. simpl.
  unfold set_users. simpl. f_equal. f_equal.
  rewrite map_app. simpl.
  destruct (decide (nid = nid)); [|contradiction]. f_equal.
  etrans; [|apply map_id]. apply map_ext_in. intros u Hu%list_elem_of_In.
  destruct (decide (u_id u = nid)) as [Heq|]; [|reflexivity].
  exfalso. apply Hid. rewrite <- Heq. apply list_elem_of_fmap. eauto.
Qed.

Lemma create_guest_then_verify_witness :
  verify_guest "2024-12-03T08:00:00" "tok-carol"
      (create_guest "tok-carol" "2024-12-02T12:00:00" "2024-12-02T12:00:01"
         "u-carol" sample_store).1
    = (set_users (users sample_store
                    ++ [mkUser "u-carol" "tok-carol" "2024-12-02T12:00:00"
                               "2024-12-03T08:00:00"]) sample_store,
       (UserBody "u-carol" "tok-carol" "2024-12-02T12:00:00", 200)).
Proof.
  apply (create_guest_then_verify sample_store "tok-carol" "2024-12-02T12:00:00"
           "2024-12-02T12:00:01" "u-carol" "2024-12-03T08:00:00").
  - compute_done.
  - apply (Forall_forall (fun u => u_guest_id u <> "tok-carol")). compute_done.
Defined.

Lemma resolve_touch now uid st g :
  resolve (set_users (map (fun u => if decide (u_id u = uid)
                                    then set_last_accessed now u else u)
                          (users st)) st) g
  = resolve st g.
Proof.
  unfold resolve. simpl. f_equal.
  induction (users st) as [|u us IH]; [reflexivity|].
  cbn [map]. rewrite !filter_cons.
  destruct (decide (u_id u = uid)); simpl;
    destruct (decide (u_guest_id u = g)); simpl; rewrite ?IH; reflexivity.
Qed.

(** X10. [verify_guest] changes no one's identity and no one's gallery:
    after it, on any token and whatever it answers, every token resolves to
    the user it resolved to before and [get_images] gives every token the
    answer it gave before. *)
Theorem verify_guest_keeps_resolution_and_lists st g now g' :
  resolve (verify_guest now g st).1 g' = resolve st g' /\
  images (verify_guest now g st).1 = images st /\
  (get_images g' (verify_guest now g st).1).2 = (get_images g' st).2.
Proof.
  destruct (verify_guest_effect st g now) as [Himgs Hcases].
  assert (resolve (verify_guest now g st).1 g' = resolve st g') as Hres.
  { destruct Hcases as [-> | [uid Hus]]; [reflexivity|].
    rewrite <- (resolve_touch now uid st g'). unfold resolve. simpl.
    rewrite Hus. reflexivity. }
  split; [exact Hres|]. split; [exact Himgs|].
  unfold get_images. run. unfold resolve in Hres.
  destruct (map u_id (filter _ (users (verify_guest now g st).1))) as [|U1 m1];
    destruct (map u_id (filter _ (users st))) as [|U2 m2];
    simpl in *; try discriminate; [reflexivity|].
  injection Hres as ->. rewrite Himgs. reflexivity.
Qed.

(** ** Create and list together *)

Lemma owned_below_next_order st U r :
  r ∈ owned_images st U -> img_display_order r < next_order st U.
Proof.
  intros Hr. destruct (next_order_spec st U) as [[Hnil _] | (m & _ & Hmax & ->)].
  - rewrite Hnil in Hr. inversion Hr.
  - specialize (Hmax r Hr). lia.
Qed.

Lemma sorted_ends_with_greatest (rows : list image) (row : image) (old : list image) :
  StronglySorted asc rows ->
  rows ≡ₚ old ++ [row] ->
  (forall r, r ∈ old -> img_display_order r < img_display_order row) ->
  last rows = Some row.
Proof.
  intros Hsorted Hperm Hlt.
  assert (row ∈ rows) as Hin by (rewrite Hperm; apply elem_of_app; right; left).
  apply list_elem_of_split in Hin as (l1 & l2 & ->).
  assert (l1 ++ l2 ≡ₚ old) as Hrest.
  { symmetry. eapply Permutation_cons_app_inv.
    rewrite Hperm. apply Permutation_cons_append. }
  destruct l2 as [|x l2]; [apply last_snoc|].
  exfalso.
  assert (asc row x) as Hle.
  { apply StronglySorted_app_1_r in Hsorted.
    apply StronglySorted_cons in Hsorted as [Hall _].
    rewrite Forall_forall in Hall. apply Hall. left. }
  assert (x ∈ old) as Hx.
  { rewrite <- Hrest. apply elem_of_app. right. left. }
  specialize (Hlt x Hx). unfold asc in Hle. lia.
Qed.

(** X11. A created image shows up at the end of its owner's list.  After
    a successful [create_image], [get_images] for the same token returns the
    rows it returned before together with the new row and nothing else, every
    earlier row has a smaller [display_order] than the new one, and the new
    row is the last of the list. *)
Theorem create_then_list_ends_with_new_row st g U fields url tc tu nid :
  resolve st g = Some U ->
  dict_lookup "image_url" fields = Some (JStr url) ->
  url <> "" ->
  text_or_absent "title" fields ->
  text_or_absent "description" fields ->
  nid ∉ map img_id (images st) ->
  exists st' row before after,
    create_image tc tu nid g (JObj fields) st = (st', (ImageBody row, 201)) /\
    get_images g st = (st, (ImagesBody before, 200)) /\
    get_images g st' = (st', (ImagesBody after, 200)) /\
    after ≡ₚ before ++ [row] /\
    (forall r, r ∈ before -> img_display_order r < img_display_order row) /\
    last after = Some row.
Proof.
  intros HU Hurl Hne Htitle Hdesc Hfresh.
  pose proof (create_image_ok st g U fields url tc tu nid
                HU Hurl Hne Htitle Hdesc Hfresh) as Hrun.
  simpl in Hrun.
  set (row := mkImage nid U (patched_text "title" fields "Untitled") url
                      (patched_text "description" fields "")
                      (next_order st U) tc tu) in *.
  set (st' := set_images (images st ++ [row]) st) in *.
  assert (owned_images st' U = owned_images st U ++ [row]) as Howned.
  { unfold owned_images, st'. simpl. rewrite filter_app.
    rewrite (filter_cons_True _ row) by reflexivity. reflexivity. }
  assert (forall r, r ∈ merge_sort asc (owned_images st U) ->
                    img_display_order r < img_display_order row) as Hlt.
  { intros r Hr. rewrite merge_sort_Permutation in Hr.
    apply (owned_below_next_order st U r Hr). }
  assert (merge_sort asc (owned_images st' U)
            ≡ₚ merge_sort asc (owned_images st U) ++ [row]) as Hperm.
  { rewrite !merge_sort_Permutation, Howned. reflexivity. }
  exists st', row, (merge_sort asc (owned_images st U)),
    (merge_sort asc (owned_images st' U)).
  split; [exact Hrun|].
  split; [apply get_images_ok; exact HU|].
  split; [apply get_images_ok; exact HU|].
  split; [exact Hperm|]. split; [exact Hlt|].
  apply (sorted_ends_with_greatest _ row (merge_sort asc (owned_images st U)));
    [apply StronglySorted_merge_sort; apply _ | exact Hperm | exact Hlt].
Qed.

Lemma create_then_list_ends_with_new_row_witness :
  exists st' row before after,
    create_image "2024-12-02T09:00:00" "2024-12-02T09:00:01" "img4" "tok-alice"
        (JObj [("image_url", JStr "http://x/4.png")]) shuffled_store
      = (st', (ImageBody row, 201)) /\
    get_images "tok-alice" shuffled_store
      = (shuffled_store, (ImagesBody before, 200)) /\
    get_images "tok-alice" st' = (st', (ImagesBody after, 200)) /\
    after ≡ₚ before ++ [row] /\
    (forall r, r ∈ before -> img_display_order r < img_display_order row) /\
    last after = Some row.
Proof.
  apply (create_then_list_ends_with_new_row shuffled_store "tok-alice" "u-alice"
           [("image_url", JStr "http://x/4.png")] "http://x/4.png").
  - reflexivity.
  - reflexivity.
  - discriminate.
  - exact I.
  - exact I.
  - compute_done.
Defined.

(** X12. The first image of a new guest stands at order 0.  In a store
    whose tables are sound, after [create_guest] has registered a fresh
    token under a fresh id, a successful [create_image] with that token
    answers 201 with a row owned by the new id whose [display_order] is 0,
    and the store it leaves is the store [create_guest] left with that row
    appended to the table of images. *)
Theorem first_image_of_new_guest_has_order_zero
    st g tc ta uid fields url t1 t2 nid :
  store_ok st ->
  uid ∉ map u_id (users st) ->
  (forall u, u ∈ users st -> u_guest_id u <> g) ->
  dict_lookup "image_url" fields = Some (JStr url) ->
  url <> "" ->
  text_or_absent "title" fields ->
  text_or_absent "description" fields ->
  nid ∉ map img_id (images st) ->
  exists row,
    create_image t1 t2 nid g (JObj fields) (create_guest g tc ta uid st).1
      = (mkStore (users st ++ [mkUser uid g tc ta]) (images st ++ [row]),
         (ImageBody row, 201)) /\
    img_id row = nid /\
    img_user_id row = uid /\
    img_display_order row = 0.
Proof.
  intros [_ Href] Huid Htoken Hurl Hne Htitle Hdesc Hfresh.
  rewrite create_guest_effect.
  destruct (decide (uid ∈ map u_id (users st))); [contradiction|]. simpl.
  set (st1 := set_users (users st ++ [mkUser uid g tc ta]) st).
  assert (resolve st1 g = Some uid) as HU
    by (apply (resolve_app_fresh st g (mkUser uid g tc ta)); auto).
  assert (owned_images st1 uid = []) as Hnone.
  { apply filter_nil_iff. intros r Hr Hown. apply Huid.
    rewrite <- Hown. apply Href. exact Hr. }
  pose proof (create_image_ok st1 g uid fields url t1 t2 nid
                HU Hurl Hne Htitle Hdesc Hfresh) as Hrun.
  simpl in Hrun. eexists. split; [exact Hrun|]. simpl.
  split; [reflexivity|]. split; [reflexivity|].
  unfold next_order. rewrite Hnone. reflexivity.
Qed.

Lemma first_image_of_new_guest_has_order_zero_witness :
  exists row,
    create_image "2024-12-02T12:05:00" "2024-12-02T12:05:01" "img4" "tok-carol"
        (JObj [("image_url", JStr "http://z/1.png")])
        (create_guest "tok-carol" "2024-12-02T12:00:00" "2024-12-02T12:00:01"
           "u-carol" sample_store).1
      = (mkStore (users sample_store
                    ++ [mkUser "u-carol" "tok-carol" "2024-12-02T12:00:00"
                               "2024-12-02T12:00:01"])
                 (images sample_store ++ [row]),
         (ImageBody row, 201)) /\
    img_id row = "img4" /\
    img_user_id row = "u-carol" /\
    img_display_order row = 0.
Proof.
  apply (first_image_of_new_guest_has_order_zero sample_store "tok-carol"
           "2024-12-02T12:00:00" "2024-12-02T12:00:01" "u-carol"
           [("image_url", JStr "http://z/1.png")] "http://z/1.png").
  - split; [compute_done|].
    apply (Forall_forall (fun r => img_user_id r ∈ map u_id (users sample_store))).
    compute_done.
  - compute_done.
  - apply (Forall_forall (fun u => u_guest_id u <> "tok-carol")). compute_done.
  - reflexivity.
  - discriminate.
  - exact I.
  - exact I.
  - compute_done.
Defined.

(** ** The ownership check, both ways *)

Lemma update_image_passes_check st now g iid data U more r rs :
  map u_id (filter (fun u => u_guest_id u = g) (users st)) = U :: more ->
  filter (fun x => img_id x = iid /\ img_user_id x = U) (images st) = r :: rs ->
  snd (snd (update_image now g iid data st)) <> 404.
Proof.
  intros HU Hf. unfold update_image. run. rewrite HU, Hf.
  repeat match goal with
         | |- context [copy_if_present ?d ?k ?u ?s] =>
             destruct (copy_if_present d k u s) as [? [?|?]]; simpl;
             try lia
         end.
  unfold images_update, first_row, raise. run.
  destruct (payload_write _) as [w|]; simpl; [|lia].
  destruct (map w _); simpl; lia.
Qed.

(** X13. For a resolved user, [update_image] and [delete_image] answer 404
    exactly when the user owns no row with the id of the request, whatever
    the body: an id that no row has and an id of somebody else's image get
    the same answer, 404 "Image not found or access denied" with the store
    unchanged, and an owned id never gets a 404. *)
Theorem not_found_iff_not_owned st g U iid now data :
  resolve st g = Some U ->
  let unowned := forall r, r ∈ images st -> img_id r = iid -> img_user_id r <> U in
  (unowned ->
     update_image now g iid data st
       = (st, NotFound "Image not found or access denied") /\
     delete_image g iid st
       = (st, NotFound "Image not found or access denied")) /\
  (snd (snd (update_image now g iid data st)) = 404 -> unowned) /\
  (snd (snd (delete_image g iid st)) = 404 -> unowned).
Proof.
  intros HU unowned. split; [|split].
  - intros Hno. split.
    + apply (update_image_denied st g U); assumption.
    + apply (delete_image_denied st g U); assumption.
  - intros H404 r Hr Hid Hown.
    destruct (resolve_some st g U HU) as [more HU'].
    destruct (filter_cons_of_elem
                (fun x => img_id x = iid /\ img_user_id x = U) (images st) r Hr)
      as (y & ys & Hf); [split; assumption|].
    exact (update_image_passes_check st now g iid data U more y ys HU' Hf H404).
  - intros H404 r Hr Hid Hown.
    rewrite (delete_image_ok st g U iid HU) in H404; [discriminate|].
    exists r. auto.
Qed.

Lemma not_found_iff_not_owned_witness :
  update_image "2024-12-02T09:00:00" "tok-alice" "img-none" JNull sample_store
    = (sample_store, NotFound "Image not found or access denied") /\
  delete_image "tok-alice" "img-none" sample_store
    = (sample_store, NotFound "Image not found or access denied").
Proof.
  apply (not_found_iff_not_owned sample_store "tok-alice" "u-alice" "img-none"
           "2024-12-02T09:00:00" JNull eq_refl).
  apply (Forall_forall (fun r => img_id r = "img-none" -> img_user_id r <> "u-alice")).
  repeat constructor; simpl; discriminate.
Defined.

(** ** Bodies that are not what the route expects *)

Lemma no_key_among (k : string) (items : list json) :
  Forall (fun v => v <> JStr k) items -> existsb (is_str k) items = false.
Proof.
  induction 1 as [|v items Hv _ IH]; [reflexivity|]. simpl. rewrite IH.
  destruct v as [| | |s| |]; try reflexivity. simpl.
  destruct (String.eqb s k) eqn:E; [|reflexivity].
  apply String.eqb_eq in E. subst s. destruct Hv. reflexivity.
Qed.

(** X14. [update_image] on a body that is not an object, sent by the
    owner of the image.  A null, boolean or numeric body passes the
    ownership check and then fails on the first [in] test: 500 with a
    [TypeError], the store unchanged.  An array body that does not contain
    one of the four field names as a string is taken as an update without
    fields: the answer and the store are those of the empty object, so only
    [updated_at] is refreshed. *)
Theorem update_with_non_object_body st g U r now :
  resolve st g = Some U ->
  r ∈ images st ->
  img_user_id r = U ->
  (forall data,
     data = JNull \/ (exists b, data = JBool b) \/ (exists n, data = JNum n) ->
     update_image now g (img_id r) data st = (st, StoreError TypeError)) /\
  (forall items,
     Forall (fun v => v <> JStr "title" /\ v <> JStr "description" /\
                      v <> JStr "image_url" /\ v <> JStr "display_order") items ->
     update_image now g (img_id r) (JArr items) st
       = update_image now g (img_id r) (JObj []) st).
Proof.
  intros [more HU]%resolve_some Hr Hown.
  destruct (filter_cons_of_elem
              (fun x => img_id x = img_id r /\ img_user_id x = U) (images st) r Hr)
    as (y & ys & Hf); [split; [reflexivity | assumption]|].
  split.
  - intros data Hdata. unfold update_image. run. rewrite HU, Hf.
    destruct Hdata as [-> | [[b ->] | [n ->]]]; reflexivity.
  - intros items Hitems. unfold update_image. run. rewrite HU, Hf.
    unfold copy_if_present. run.
    rewrite !no_key_among; [reflexivity | | | |];
      (eapply Forall_impl; [exact Hitems|]); intros v (H1 & H2 & H3 & H4); assumption.
Qed.

Lemma update_with_non_object_body_witness :
  update_image "2024-12-02T09:00:00" "tok-alice" "img1" JNull sample_store
    = (sample_store, StoreError TypeError) /\
  update_image "2024-12-02T09:00:00" "tok-alice" "img1"
      (JArr [JNum 1; JStr "x"]) sample_store
    = (mkStore [alice; bob] [img0; set_updated_at "2024-12-02T09:00:00" img1],
       (ImageBody (set_updated_at "2024-12-02T09:00:00" img1), 200)).
Proof.
  assert (img1 ∈ images sample_store) as Hin by (right; left).
  destruct (update_with_non_object_body sample_store "tok-alice" "u-alice" img1
              "2024-12-02T09:00:00" eq_refl Hin eq_refl) as [Hnull Harr].
  split.
  - apply Hnull. left. reflexivity.
  - etrans; [apply Harr|reflexivity].
    repeat constructor; discriminate.
Defined.

(** X15. Bodies that [create_image] turns away before it looks at the
    token, registered or not, the store unchanged.  A body that is not an
    object gets 500 with an [AttributeError].  An object whose [image_url]
    is any value Python holds false (null, false, 0, the empty string, the
    empty array, the empty object) gets 400 "image_url is required". *)
Theorem create_rejects_before_resolving st g tc tu nid :
  (forall data,
     (forall fields, data <> JObj fields) ->
     create_image tc tu nid g data st = (st, StoreError AttributeError)) /\
  (forall fields v,
     dict_lookup "image_url" fields = Some v ->
     v ∈ [JNull; JBool false; JNum 0; JStr ""; JArr []; JObj []] ->
     create_image tc tu nid g (JObj fields) st
       = (st, InvalidInput "image_url is required")).
Proof.
  split.
  - intros data Hdata. unfold create_image. run.
    destruct data as [| | | | |fields]; try reflexivity.
    destruct (Hdata fields). reflexivity.
  - intros fields v Hv Hfalsy. apply create_image_invalid. rewrite Hv. simpl.
    repeat (apply elem_of_cons in Hfalsy as [-> | Hfalsy]; [reflexivity|]).
    inversion Hfalsy.
Qed.

(** X16. [reorder_images] when [order] is not an array, for a resolved
    user.  The loop runs over what Python iterates: nothing for the empty
    string and the empty object, which therefore answer 200 "Reordered";
    characters or keys otherwise, on the first of which the loop body raises,
    and null, booleans and numbers cannot be iterated at all: 500 with a
    [TypeError].  In every case the store is unchanged. *)
Theorem reorder_with_non_array_order st g U fields v :
  resolve st g = Some U ->
  dict_lookup "order" fields = Some v ->
  (forall items, v <> JArr items) ->
  reorder_images g (JObj fields) st
    = (st, if yields_no_item v
           then (MessageBody "Reordered", 200)
           else StoreError TypeError).
Proof.
  intros [more HU]%resolve_some Hv Hnot.
  unfold reorder_images. run. rewrite HU, Hv. simpl.
  destruct v as [| | |s|items|fs]; simpl; try reflexivity.
  - destruct s as [|c s]; reflexivity.
  - destruct (Hnot items). reflexivity.
  - destruct fs as [|[k x] fs]; reflexivity.
Qed.

Lemma reorder_with_non_array_order_witness :
  reorder_images "tok-alice" (JObj [("order", JObj [])]) sample_store
    = (sample_store, (MessageBody "Reordered", 200)) /\
  reorder_images "tok-alice" (JObj [("order", JStr "img0")]) sample_store
    = (sample_store, StoreError TypeError).
Proof.
  split.
  - apply (reorder_with_non_array_order sample_store "tok-alice" "u-alice"
             [("order", JObj [])] (JObj []) eq_refl eq_refl).
    discriminate.
  - apply (reorder_with_non_array_order sample_store "tok-alice" "u-alice"
             [("order", JStr "img0")] (JStr "img0") eq_refl eq_refl).
    discriminate.
Defined.

Lemma create_rejects_before_resolving_witness :
  create_image "t" "t" "img9" "tok-nobody" JNull sample_store
    = (sample_store, StoreError AttributeError) /\
  create_image "t" "t" "img9" "tok-alice" (JObj [("image_url", JNum 0)])
      sample_store
    = (sample_store, InvalidInput "image_url is required").
Proof.
  destruct (create_rejects_before_resolving sample_store "tok-nobody" "t" "t" "img9")
    as [Hbody _].
  destruct (create_rejects_before_resolving sample_store "tok-alice" "t" "t" "img9")
    as [_ Hfalsy].
  split.
  - apply Hbody. discriminate.
  - apply (Hfalsy [("image_url", JNum 0)] (JNum 0) eq_refl). do 2 right. left.
Defined.

(** ** The guest header *)

(** X17. Without the header [X-Guest-ID], or with an empty one, every
    decorated route answers 401 "Guest ID required" and leaves its state
    unchanged, before any validation of the body and any look at the
    store; so a user row whose token is the empty string can never be
    reached. *)
Theorem missing_guest_id_is_401_on_every_route hdr :
  hdr = None \/ hdr = Some "" ->
  (forall now st,
     route_verify_guest now hdr st = (st, MissingAuth "Guest ID required")) /\
  (forall st, route_get_images hdr st = (st, MissingAuth "Guest ID required")) /\
  (forall tc tu nid data st,
     route_create_image tc tu nid hdr data st
       = (st, MissingAuth "Guest ID required")) /\
  (forall now iid data st,
     route_update_image now hdr iid data st
       = (st, MissingAuth "Guest ID required")) /\
  (forall iid st,
     route_delete_image hdr iid st = (st, MissingAuth "Guest ID required")) /\
  (forall data st,
     route_reorder_images hdr data st = (st, MissingAuth "Guest ID required")) /\
  (forall pf uuid files w,
     route_upload_file pf uuid hdr files w
       = (w, (Core (ErrorBody "Guest ID required"), 401))).
Proof.
  intros [-> | ->]; repeat split.
Qed.

Lemma missing_guest_id_is_401_on_every_route_witness :
  route_create_image "t" "t" "img9" (Some "") (JObj [])
      (mkStore [mkUser "u-ghost" "" "t0" "t0"] [])
    = (mkStore [mkUser "u-ghost" "" "t0" "t0"] [],
       MissingAuth "Guest ID required").
Proof.
  destruct (missing_guest_id_is_401_on_every_route (Some ""))
    as (_ & _ & Hcreate & _); [right; reflexivity|].
  apply Hcreate.
Defined.

(** ** Upload *)

Lemma upload_file_cases pf uuid g files w :
  match files_lookup "file" files with
  | None =>
      upload_file pf uuid g files w
        = (w, (Core (ErrorBody "No file provided"), 400))
  | Some file =>
      if String.eqb (fp_filename file) "" then
        upload_file pf uuid g files w
          = (w, (Core (ErrorBody "No file selected"), 400))
      else
        match resolve (db w) g with
        | None =>
            upload_file pf uuid g files w
              = (w, (Core (ErrorBody "User not found"), 404))
        | Some U =>
            let key := String.append U
                         (String.append "/"
                            (String.append uuid
                               (splitext_ext pf (fp_filename file)))) in
            if decide (key ∈ map blob_key (bucket w)) then
              upload_file pf uuid g files w
                = (w, (XExceptionBody StorageException, 500))
            else
              upload_file pf uuid g files w
                = (mkWorld (db w)
                     (bucket w ++ [mkBlob key (fp_content_type file) (fp_data file)]),
                   (UploadBody (get_public_url pf key) key, 201))
        end
  end.
Proof.
  unfold upload_file, resolve, users_select_id_by_guest, storage_upload.
  destruct (files_lookup "file" files) as [file|]; [|reflexivity].
  destruct (String.eqb (fp_filename file) ""); [reflexivity|].
  destruct (map u_id _) as [|U more]; simpl; [reflexivity|].
  destruct (decide _); reflexivity.
Qed.

(** X18. Whatever the token and the parts of the request, [upload_file]
    never writes to the database, and it does one of two things with the
    bucket.  Either it leaves it as it was and does not answer 201; or it
    answers 201 and adds exactly one object, under the key
    [user_id/uuid.ext] of the user the token resolves to, a key that was
    free, holding the data and the content type of the part [file]; the
    answer carries that key and its public URL. *)
Theorem upload_stores_one_object_or_nothing pf uuid g files w :
  db (upload_file pf uuid g files w).1 = db w /\
  (((upload_file pf uuid g files w).1 = w /\
    snd (snd (upload_file pf uuid g files w)) <> 201) \/
   (exists file U key,
      files_lookup "file" files = Some file /\
      fp_filename file <> "" /\
      resolve (db w) g = Some U /\
      key = String.append U
              (String.append "/"
                 (String.append uuid (splitext_ext pf (fp_filename file)))) /\
      (key ∉ map blob_key (bucket w)) /\
      upload_file pf uuid g files w
        = (mkWorld (db w)
             (bucket w ++ [mkBlob key (fp_content_type file) (fp_data file)]),
           (UploadBody (get_public_url pf key) key, 201)))).
Proof.
  pose proof (upload_file_cases pf uuid g files w) as H.
  destruct (files_lookup "file" files) as [file|] eqn:Hfile;
    [|rewrite H; split; [reflexivity | left; split; [reflexivity | simpl; lia]]].
  destruct (String.eqb (fp_filename file) "") eqn:Hname;
    [rewrite H; split; [reflexivity | left; split; [reflexivity | simpl; lia]]|].
  destruct (resolve (db w) g) as [U|] eqn:HU;
    [|rewrite H; split; [reflexivity | left; split; [reflexivity | simpl; lia]]].
  simpl in H. destruct (decide _) as [Htaken|Hfree];
    [rewrite H; split; [reflexivity | left; split; [reflexivity | simpl; lia]]|].
  rewrite H. split; [reflexivity|]. right.
  eexists file, U, _. split; [reflexivity|].
  split; [apply String.eqb_neq; exact Hname|].
  split; [reflexivity|]. split; [reflexivity|]. split; [exact Hfree | reflexivity].
Qed.

(** X19. The order in which [upload_file] turns a request away, the
    world unchanged each time: without a part named [file] it answers 400
    "No file provided", and with a part whose filename is empty 400 "No file
    selected", in both cases without looking at the token; only then does an
    unregistered token get 404 "User not found"; and a registered user whose
    generated key is taken gets 500 from the blob store. *)
Theorem upload_refusals_in_order pf uuid g files w :
  (files_lookup "file" files = None ->
     upload_file pf uuid g files w
       = (w, (Core (ErrorBody "No file provided"), 400))) /\
  (forall file,
     files_lookup "file" files = Some file -> fp_filename file = "" ->
     upload_file pf uuid g files w
       = (w, (Core (ErrorBody "No file selected"), 400))) /\
  (forall file,
     files_lookup "file" files = Some file -> fp_filename file <> "" ->
     resolve (db w) g = None ->
     upload_file pf uuid g files w
       = (w, (Core (ErrorBody "User not found"), 404))) /\
  (forall file U,
     files_lookup "file" files = Some file -> fp_filename file <> "" ->
     resolve (db w) g = Some U ->
     String.append U
       (String.append "/" (String.append uuid (splitext_ext pf (fp_filename file))))
       ∈ map blob_key (bucket w) ->
     upload_file pf uuid g files w
       = (w, (XExceptionBody StorageException, 500))).
Proof.
  pose proof (upload_file_cases pf uuid g files w) as H.
  refine (conj _ (conj _ (conj _ _))).
  - intros Hnone. rewrite Hnone in H. exact H.
  - intros file Hfile Hname. rewrite Hfile, Hname in H. exact H.
  - intros file Hfile Hname HU. rewrite Hfile, HU in H.
    apply String.eqb_neq in Hname. rewrite Hname in H. exact H.
  - intros file U Hfile Hname HU Htaken. rewrite Hfile, HU in H.
    apply String.eqb_neq in Hname. rewrite Hname in H. simpl in H.
    destruct (decide _); [exact H | contradiction].
Qed.

Lemma upload_refusals_in_order_witness :
  upload_file sample_platform "uuid-1" "tok-nobody" [] sample_world
    = (sample_world, (Core (ErrorBody "No file provided"), 400)) /\
  upload_file sample_platform "uuid-1" "tok-nobody" [("file", tree_png)] sample_world
    = (sample_world, (Core (ErrorBody "User not found"), 404)).
Proof.
  destruct (upload_refusals_in_order sample_platform "uuid-1" "tok-nobody" []
              sample_world) as (Hnone & _).
  destruct (upload_refusals_in_order sample_platform "uuid-1" "tok-nobody"
              [("file", tree_png)] sample_world) as (_ & _ & Hunknown & _).
  split.
  - apply Hnone. reflexivity.
  - apply (Hunknown tree_png); [reflexivity | discriminate | reflexivity].
Defined.

(** The upload of the sample file by the first guest. *)
Example upload_tree_png :
  upload_file sample_platform "uuid-1" "tok-alice" [("file", tree_png)] sample_world
    = (mkWorld sample_store [mkBlob "u-alice/uuid-1.png" "image/png" "PNGDATA"],
       (UploadBody "https://blobs.example/images/u-alice/uuid-1.png"
                   "u-alice/uuid-1.png", 201)).
Proof. reflexivity. Qed.

(** ** One guest's requests and another guest's gallery *)

Lemma get_images_ext st st' g :
  users st' = users st ->
  (forall V, resolve st g = Some V -> owned_images st' V = owned_images st V) ->
  (get_images g st').2 = (get_images g st).2.
Proof.
  intros Hus Howned. unfold get_images. run. rewrite Hus.
  destruct (map u_id _) as [|V more] eqn:HV; simpl; [reflexivity|].
  assert (resolve st g = Some V) as Hres by (unfold resolve; rewrite HV; reflexivity).
  specialize (Howned V Hres). unfold owned_images in Howned. rewrite Howned.
  reflexivity.
Qed.

Lemma filter_owner_frame V (P : image -> Prop) (l l' : list image) :
  Forall2 (fun o n => same_identity o n /\ (P o -> n = o)) l l' ->
  (forall o, o ∈ l -> img_user_id o = V -> P o) ->
  filter (fun r => img_user_id r = V) l' = filter (fun r => img_user_id r = V) l.
Proof.
  induction 1 as [|o n l l' [(_ & Hu & _) Hkeep] _ IH]; intros HP; [reflexivity|].
  rewrite !filter_cons, IH by (intros x Hx; apply HP; right; exact Hx).
  destruct (decide (img_user_id o = V)) as [Ho|Ho].
  - rewrite (Hkeep (HP o ltac:(left) Ho)).
    destruct (decide (img_user_id o = V)); [reflexivity | contradiction].
  - destruct (decide (img_user_id n = V)) as [Hn|]; [|reflexivity].
    rewrite Hu in Hn. contradiction.
Qed.

Lemma filter_filter_in {A} (P Q : A -> Prop)
    `{forall x, Decision (P x)} `{forall x, Decision (Q x)} (l : list A) :
  (forall x, x ∈ l -> P x -> Q x) -> filter P (filter Q l) = filter P l.
Proof.
  induction l as [|a l IH]; intros HPQ; [reflexivity|].
  rewrite (filter_cons Q), (filter_cons P a l).
  assert (filter P (filter Q l) = filter P l) as IH'
    by (apply IH; intros x Hx; apply HPQ; right; exact Hx).
  destruct (decide (Q a)) as [Hq|Hq].
  - rewrite filter_cons, IH'. reflexivity.
  - destruct (decide (P a)) as [Hp|]; [|exact IH'].
    destruct Hq. apply (HPQ a); [left | exact Hp].
Qed.

Lemma others_rows_have_other_ids st U V iid r x :
  NoDup (map img_id (images st)) ->
  r ∈ images st -> img_id r = iid -> img_user_id r = U ->
  U <> V ->
  x ∈ images st -> img_user_id x = V -> img_id x <> iid.
Proof.
  intros Hnd Hr Hid Hown Hne Hx Hxv Hxid.
  assert (x = r) as -> by (apply (same_id_same_row _ r x Hnd Hr Hx); congruence).
  congruence.
Qed.

(** X20. What one guest does never changes what another guest sees.
    With image ids unique in the table and a token that resolves to [U],
    after any [create_image], [update_image], [delete_image] or
    [reorder_images] sent with that token, on any id and any body and
    whatever the answer, [get_images] gives every token that does not resolve
    to [U] exactly the answer it gave before. *)
Theorem other_guests_list_is_untouched st gU U gV :
  NoDup (map img_id (images st)) ->
  resolve st gU = Some U ->
  resolve st gV <> Some U ->
  (forall tc tu nid data,
     (get_images gV (create_image tc tu nid gU data st).1).2 = (get_images gV st).2) /\
  (forall now iid data,
     (get_images gV (update_image now gU iid data st).1).2 = (get_images gV st).2) /\
  (forall iid,
     (get_images gV (delete_image gU iid st).1).2 = (get_images gV st).2) /\
  (forall data,
     (get_images gV (reorder_images gU data st).1).2 = (get_images gV st).2).
Proof.
  intros Hnd HU HV. refine (conj _ (conj _ (conj _ _))); intros.
  - destruct (create_image_effect st gU data tc tu nid)
      as [[-> _] | (U' & row & HU' & _ & -> & _ & Hown & _)]; [reflexivity|].
    apply get_images_ext; [reflexivity|]. intros V HVres.
    unfold owned_images. simpl. rewrite filter_app, filter_cons_False, filter_nil.
    + apply app_nil_r.
    + rewrite Hown. congruence.
  - destruct (update_image_frame st now gU iid data) as [Hus Himgs].
    apply get_images_ext; [exact Hus|]. intros V HVres.
    destruct (filter (fun x => img_id x = iid /\ img_user_id x = U) (images st))
      as [|r rs] eqn:Hf.
    + rewrite (update_image_denied st gU U iid now data HU); [reflexivity|].
      intros r Hr Hid Hown.
      exact (proj1 (filter_nil_iff _ _) Hf r Hr (conj Hid Hown)).
    + assert (r ∈ filter (fun x => img_id x = iid /\ img_user_id x = U) (images st))
        as Hr by (rewrite Hf; left).
      apply list_elem_of_filter in Hr as [[Hid Hown] Hr].
      apply (filter_owner_frame V (fun o => img_id o <> iid)); [exact Himgs|].
      intros x Hx Hxv.
      apply (others_rows_have_other_ids st U V iid r x); try assumption.
      congruence.
  - destruct (delete_image_effect st gU iid)
      as [[-> _] | (U' & r & HU' & Hr & Hid & Hown & ->)]; [reflexivity|].
    apply get_images_ext; [reflexivity|]. intros V HVres.
    unfold owned_images. simpl. apply filter_filter_in. intros x Hx Hxv.
    apply (others_rows_have_other_ids st U' V iid r x); try assumption.
    congruence.
  - destruct (reorder_images_frame st gU data) as [Hus Himgs].
    apply get_images_ext; [exact Hus|]. intros V HVres.
    apply (filter_owner_frame V (fun o => resolve st gU <> Some (img_user_id o))).
    + eapply Forall2_impl; [exact Himgs|]. intros o n [Hsame Hkeep].
      split; [apply same_but_order_identity; exact Hsame | exact Hkeep].
    + intros x _ Hxv. rewrite HU, Hxv. congruence.
Qed.

Lemma other_guests_list_is_untouched_witness :
  (get_images "tok-bob"
     (delete_image "tok-alice" "img0" shuffled_store).1).2
    = (get_images "tok-bob" shuffled_store).2 /\
  (get_images "tok-bob"
     (reorder_images "tok-alice"
        (JObj [("order", JArr [JObj [("id", JStr "img3"); ("order", JNum 9)]])])
        shuffled_store).1).2
    = (get_images "tok-bob" shuffled_store).2.
Proof.
  destruct (other_guests_list_is_untouched shuffled_store "tok-alice" "u-alice"
              "tok-bob") as (_ & _ & Hdelete & Hreorder).
  - compute_done.
  - reflexivity.
  - discriminate.
  - split; [apply Hdelete | apply Hreorder].
Defined.
